(** * pycmor_test_data_fesom: FESOM test fixtures

    A shallow embedding of [fesom_2p6.py] and [fesom_dev.py]: the two model-run
    variants, their stub mesh synthesizer, the config lookup, the archive
    unwrapping and the git clone cache.

    Python values are modelled as follows.
    - [int] is [Z]; [float] is an IEEE binary64 value, [spec_float] with
      precision 53 and maximal exponent 1024, with the operations of
      [SpecFloat] (round to nearest, ties to even).
    - [str] is [string]; an f-string is the concatenation of its pieces, each
      replacement field rendered by the format-spec functions below. Files are
      opened in text mode on a POSIX system: a newline is written as it is.
    - [pathlib.Path] is the list of its components.
    - The file system maps a path to a directory or a file with its contents;
      it has no links. Search permission on directories is modelled where
      [configs] looks its files up ([path_exists_in]); writing and making
      directories are modelled for a process allowed to do both, and the
      statements on them that say when a call raises are one-directional.
    - Code with effects runs in a state-and-exception monad over the world
      (file system, log records, external commands started).
    - What other packages own is a parameter: [fetch_and_extract],
      [generate_stub_files], the members inherited from [BaseModelRun], and
      the command runner behind [subprocess.run]. *)

From Stdlib Require Import ZArith QArith Qround String Ascii List DecimalString.
From Stdlib Require Import Floats.SpecFloat.
From stdpp Require Import gmap strings list fin_maps.

Local Open Scope string_scope.
Local Open Scope Z_scope.

(** ** Python numbers and their formatting *)

Module PyNum.

Definition prec : Z := 53.
Definition emax : Z := 1024.

Abbreviation float := spec_float.

(** [float(n)] for an [int] n: the nearest binary64 value. *)
Definition float_of_int (n : Z) : float := binary_normalize prec emax n 0 false.

Definition fadd : float -> float -> float := SFadd prec emax.
Definition fsub : float -> float -> float := SFsub prec emax.
Definition fmul : float -> float -> float := SFmul prec emax.
Definition fneg : float -> float := SFopp.

(** A decimal literal whose value is [num / den], both exactly representable:
    the correctly rounded quotient is the nearest binary64 value, which is
    what the Python parser produces for the literal. *)
Definition float_literal (num den : Z) : float :=
  SFdiv prec emax (float_of_int num) (float_of_int den).

(** [str(n)] for an [int]. *)
Definition str_int (n : Z) : string :=
  match n with
  | Z0 => "0"
  | Zpos p => NilZero.string_of_uint (Pos.to_uint p)
  | Zneg p => "-" +:+ NilZero.string_of_uint (Pos.to_uint p)
  end.

Fixpoint replicate_char (n : nat) (c : ascii) : string :=
  match n with
  | O => EmptyString
  | S k => String c (replicate_char k c)
  end.

(** Right alignment in a field of width [w] (the default for numbers);
    a longer text is not truncated. *)
Definition rjust (w : nat) (fill : ascii) (s : string) : string :=
  replicate_char (w - String.length s) fill +:+ s.

(** [format(n, "<w>d")]. *)
Definition format_d (w : nat) (n : Z) : string := rjust w " " (str_int n).

(** [n / d] rounded to the nearest integer, ties to even ([0 <= n], [0 < d]). *)
Definition div_half_even (n d : Z) : Z :=
  let q := n / d in
  let r := n mod d in
  if 2 * r <? d then q
  else if d <? 2 * r then q + 1
  else if Z.even q then q else q + 1.

(** The magnitude [m * 2^e] in units of [10^-p], correctly rounded. *)
Definition scaled_magnitude (p : nat) (m : positive) (e : Z) : Z :=
  let n := Zpos m * 10 ^ Z.of_nat p in
  if 0 <=? e then n * 2 ^ e else div_half_even n (2 ^ (- e)).

(** The decimal text of [q * 10^-p] for [0 <= q], with exactly [p] digits
    after the point (and no point when [p = 0]). *)
Definition fixed_text (p : nat) (q : Z) : string :=
  let scale := 10 ^ Z.of_nat p in
  str_int (q / scale) +:+
  match p with
  | O => ""
  | _ => "." +:+ rjust p "0" (str_int (q mod scale))
  end.

(** The text of the escape [\n]. *)
Definition LF : string := String "010" EmptyString.

Definition sign_text (s : bool) : string := if s then "-" else "".

(** [format(x, ".<p>f")] for a [float]. *)
Definition format_f (p : nat) (x : float) : string :=
  match x with
  | S754_nan => "nan"
  | S754_infinity s => sign_text s +:+ "inf"
  | S754_zero s => sign_text s +:+ fixed_text p 0
  | S754_finite s m e => sign_text s +:+ fixed_text p (scaled_magnitude p m e)
  end.

(** [format(x, "<w>.<p>f")]. *)
Definition format_wf (w p : nat) (x : float) : string := rjust w " " (format_f p x).

End PyNum.

Import PyNum.

(** ** The Python run-time the fixtures rely on: paths, files, logging,
       exceptions *)

Module Py.

(** A [pathlib.Path], absolute, as the list of its components with the
    innermost first: [/a/b/c] is ["c"; "b"; "a"] and [/] is [[]], so that
    [p / name] is a cons and [p.parent] a tail. *)
Abbreviation Path := (list string).

Definition joinpath (p : Path) (name : string) : Path := name :: p.
Definition parent (p : Path) : Path := tail p.

(** [str(p)]. *)
Definition str_path (p : Path) : string :=
  match p with
  | [] => "/"
  | _ => String.concat "" (map (fun c => "/" +:+ c) (rev p))
  end.

Inductive node : Type :=
| Dir
| File (content : string).

Abbreviation FS := (gmap (list string) node).

(** The root directory always exists. *)
Definition node_at (fs : FS) (p : Path) : option node :=
  match p with
  | [] => Some Dir
  | _ => fs !! p
  end.

Inductive level : Type := INFO | ERROR.

Inductive exn : Type :=
| RuntimeError (msg : string)
| FileNotFoundError (what : string)
| NotADirectoryError (what : string)
| IsADirectoryError (what : string)
| FileExistsError (what : string)
| ValueError (what : string)
| TimeoutExpired (cmd : list string) (timeout : Z)
| PermissionError (what : string)
| ExternalError (what : string).

(** What a run can observe and change: the file system, the records handed
    to the logger, and the external commands started so far. *)
Record World : Type := mkWorld {
  fs : FS;
  logs : list (level * string);
  calls : list (list string)
}.

Definition set_fs (w : World) (f : FS) : World :=
  {| fs := f; logs := logs w; calls := calls w |}.

Inductive outcome (A : Type) : Type :=
| Ret (a : A) (w : World)
| Raise (e : exn) (w : World).
Arguments Ret {A} a w.
Arguments Raise {A} e w.

Definition M (A : Type) : Type := World -> outcome A.

Definition ret {A} (a : A) : M A := fun w => Ret a w.
Definition raise {A} (e : exn) : M A := fun w => Raise e w.
Definition bind {A B} (m : M A) (k : A -> M B) : M B :=
  fun w => match m w with
           | Ret a w' => k a w'
           | Raise e w' => Raise e w'
           end.

(** [try: body except <handled classes>: handler]; [handler e] is [None] for
    an exception no clause matches, which then propagates. *)
Definition try_except {A} (body : M A) (handler : exn -> option (M A)) : M A :=
  fun w => match body w with
           | Ret a w' => Ret a w'
           | Raise e w' =>
               match handler e with
               | Some h => h w'
               | None => Raise e w'
               end
           end.

(** The monad in stdpp's notation: [x ← m; k] and [m;; k]. *)
#[export] Instance M_ret : MRet M := @ret.
#[export] Instance M_bind : MBind M := fun A B k m => bind m k.

(** [for x in xs: body x]. *)
Fixpoint for_each {A} (xs : list A) (body : A -> M unit) : M unit :=
  match xs with
  | [] => ret tt
  | x :: rest => body x;; for_each rest body
  end.

(** [range(lo, hi)]. *)
Definition range (lo hi : Z) : list Z := seqZ lo (hi - lo).

(** [p.exists()] where every directory above [p] can be searched. *)
Definition path_exists (p : Path) : M bool :=
  fun w => Ret (bool_decide (is_Some (node_at (fs w) p))) w.

(** The directories above [p], nearest first. *)
Fixpoint ancestors (p : Path) : list Path :=
  match p with
  | [] => []
  | _ :: up => up :: ancestors up
  end.

(** [stat(p)] fails with EACCES: a directory above [p] exists and is one of
    those the process has no search permission on. *)
Definition denied (unsearchable : gset Path) (fs : FS) (p : Path) : bool :=
  existsb (fun q => bool_decide (q ∈ unsearchable)
                    && match node_at fs q with Some Dir => true | _ => false end)
          (ancestors p).

(** [p.exists()] as pathlib has it: a missing file or directory on the way
    means [False]; any other error of [stat] is raised, so a directory that
    cannot be searched gives a [PermissionError] naming [p]. *)
Definition path_exists_in (unsearchable : gset Path) (p : Path) : M bool :=
  fun w =>
    if denied unsearchable (fs w) p then Raise (PermissionError (str_path p)) w
    else path_exists p w.

(** [os.mkdir(p)]. *)
Definition os_mkdir (p : Path) : M unit :=
  fun w =>
    match node_at (fs w) p with
    | Some _ => Raise (FileExistsError (str_path p)) w
    | None =>
        match node_at (fs w) (parent p) with
        | Some Dir => Ret tt (set_fs w (<[p := Dir]> (fs w)))
        | Some (File _) => Raise (NotADirectoryError (str_path p)) w
        | None => Raise (FileNotFoundError (str_path p)) w
        end
    end.

Definition is_dir (p : Path) : M bool :=
  fun w => Ret (match node_at (fs w) p with Some Dir => true | _ => false end) w.

(** The [except OSError] clause of [Path.mkdir] with [exist_ok=True]: the
    error is swallowed when [p] is a directory. *)
Definition unless_is_dir (p : Path) (e : exn) : M unit :=
  d ← is_dir p; if d : bool then ret tt else raise e.

(** [p.mkdir(parents=False, exist_ok=True)]. *)
Definition mkdir_exist_ok (p : Path) : M unit :=
  try_except (os_mkdir p)
    (fun e => match e with
              | FileExistsError _ | NotADirectoryError _ => Some (unless_is_dir p e)
              | _ => None
              end).

(** [p.mkdir(parents=True, exist_ok=True)], as pathlib does it: try
    [os.mkdir]; when the parent is missing make the parents and try again
    without [parents]. *)
Fixpoint mkdir_parents (p : Path) : M unit :=
  match p with
  | [] => mkdir_exist_ok p
  | _ :: up =>
      try_except (os_mkdir p)
        (fun e => match e with
                  | FileNotFoundError _ => Some (mkdir_parents up;; mkdir_exist_ok p)
                  | FileExistsError _ | NotADirectoryError _ => Some (unless_is_dir p e)
                  | _ => None
                  end)
  end.

(** [f.write(s)] on a file opened for writing: the text is appended. *)
Definition f_write (f : Path) (s : string) : M unit :=
  fun w =>
    match fs w !! f with
    | Some (File c) => Ret tt (set_fs w (<[f := File (c +:+ s)]> (fs w)))
    | _ => Raise (ValueError (str_path f)) w
    end.

(** [with open(p, "w") as f: body f]: the file is created or truncated,
    the body writes to it, and it is closed whether or not the body raises. *)
Definition with_open_w (p : Path) (body : Path -> M unit) : M unit :=
  fun w =>
    match p with
    | [] => Raise (IsADirectoryError (str_path p)) w
    | _ :: up =>
        match node_at (fs w) up with
        | None => Raise (FileNotFoundError (str_path p)) w
        | Some (File _) => Raise (NotADirectoryError (str_path p)) w
        | Some Dir =>
            match fs w !! p with
            | Some Dir => Raise (IsADirectoryError (str_path p)) w
            | _ => body p (set_fs w (<[p := File ""]> (fs w)))
            end
        end
    end.

(** [shutil.rmtree(p)]: [p] and everything below it. *)
Definition shutil_rmtree (p : Path) : M unit :=
  fun w =>
    match node_at (fs w) p with
    | None => Raise (FileNotFoundError (str_path p)) w
    | Some (File _) => Raise (NotADirectoryError (str_path p)) w
    | Some Dir =>
        Ret tt (set_fs w (filter (fun kv => ¬ (p `suffix_of` kv.1)) (fs w)))
    end.

(** [logger.info(msg)], [logger.error(msg)]. *)
Definition logger_log (l : level) (msg : string) : M unit :=
  fun w => Ret tt {| fs := fs w; logs := logs w ++ [(l, msg)]; calls := calls w |}.
Definition logger_info : string -> M unit := logger_log INFO.
Definition logger_error : string -> M unit := logger_log ERROR.

(** What starting an external command can end in. *)
Inductive proc_result : Type :=
| Completed (returncode : Z) (stdout stderr : string)
| TimedOut
| CommandNotFound.

Record CompletedProcess : Type := mkCompleted {
  returncode : Z;
  stdout : string;
  stderr : string
}.

(** [subprocess.run(args, capture_output=True, text=True, timeout=t,
    check=False)] over a command runner [run_process], which says what the
    command does to the file system and how it ends. *)
Definition subprocess_run
    (run_process : list string -> Z -> FS -> proc_result * FS)
    (args : list string) (timeout : Z) : M CompletedProcess :=
  fun w =>
    let '(r, fs') := run_process args timeout (fs w) in
    let w' := {| fs := fs'; logs := logs w; calls := calls w ++ [args] |} in
    match r with
    | Completed rc out err => Ret (mkCompleted rc out err) w'
    | TimedOut => Raise (TimeoutExpired args timeout) w'
    | CommandNotFound => Raise (FileNotFoundError (default "" (head args))) w'
    end.

(** [p.name]. *)
Definition path_name (p : Path) : string := default "" (head p).

(** [name.startswith(prefix)] and [name.endswith(suffix)]. *)
Definition startswith (name prefix : string) : bool := String.prefix prefix name.
Definition endswith (name suffix : string) : bool :=
  String.prefix (String.rev suffix) (String.rev name).

(** The entries of the directory [d], in the order the system lists them
    (here the order of the map; the code relies on no order). *)
Definition entries (fs : FS) (d : Path) : list Path :=
  filter (fun q => parent q = d ∧ q ≠ []) (map_to_list fs).*1.

(** [list(p.iterdir())]. *)
Definition iterdir (p : Path) : M (list Path) :=
  fun w =>
    match node_at (fs w) p with
    | None => Raise (FileNotFoundError (str_path p)) w
    | Some (File _) => Raise (NotADirectoryError (str_path p)) w
    | Some Dir => Ret (entries (fs w) p) w
    end.

(** [list(p.glob("*" + suffix))] for a suffix without wildcard: the entries
    of [p] whose name ends with it, hidden ones included; nothing when [p] is
    not a directory. *)
Definition glob_star (p : Path) (suffix : string) : M (list Path) :=
  fun w =>
    match node_at (fs w) p with
    | Some Dir => Ret (filter (fun q => endswith (path_name q) suffix = true)
                         (entries (fs w) p)) w
    | _ => Ret [] w
    end.

End Py.

Import Py.

(** ** [fesom_2p6.py]: the FESOM 2.6 PI mesh model run *)

Module Fesom2p6ModelRun.

Section Run.

(** [Path(__file__).parent], the directory of the module. *)
Variable here : Path.

(** [pycmor.tutorial.data_fetcher.fetch_and_extract(name, registry_path)]
    and [pycmor.tutorial.stub_generator.generate_stub_files(manifest,
    stub_dir)], owned by another package. *)
Variable fetch_and_extract : string -> Path -> M Path.
Variable generate_stub_files : Path -> Path -> M Path.

Definition registry_path : Path := joinpath here "registry.yaml".

Definition stub_manifest_path : Path := joinpath here "fesom_2p6_stub_manifest.yaml".

(** The directories the process has no search permission on; nothing in the
    package changes a permission. *)
Variable unsearchable : gset Path.

Definition configs : M (gmap string Path) :=
  let configs : gmap string Path := ∅ in
  let fixtures_dir := joinpath here "fixtures" in
  let cmip6_config := joinpath fixtures_dir "config_cmip6_fesom_2p6.yaml" in
  found6 ← path_exists_in unsearchable cmip6_config;
  let configs := if found6 : bool then <["cmip6" := cmip6_config]> configs else configs in
  let cmip7_config := joinpath fixtures_dir "config_cmip7_fesom_2p6.yaml" in
  found7 ← path_exists_in unsearchable cmip7_config;
  let configs := if found7 : bool then <["cmip7" := cmip7_config]> configs else configs in
  mret configs.

Definition fetch_real_datadir : M Path :=
  data_dir ← fetch_and_extract "fesom_2p6_pimesh.tar" registry_path;
  let inner_dir := joinpath data_dir "fesom_2p6_pimesh" in
  found ← path_exists inner_dir;
  if found : bool then mret inner_dir else mret data_dir.

(** The text written for index [i] by the loop of [nod2d.out]. *)
Definition nod2d_record (i : Z) : string :=
  let lon := fadd (float_literal 300 1) (fmul (float_of_int i) (float_literal 1 10)) in
  let lat := fadd (float_literal 74 1) (fmul (float_of_int i) (float_literal 5 100)) in
  format_d 8 i +:+ " " +:+ format_wf 14 7 lon +:+ "  " +:+ format_wf 14 7 lat
  +:+ "        0" +:+ LF.

(** The two lines written for index [i] by the loop of [elem2d.out]. *)
Definition elem2d_first (i : Z) : string :=
  let '(n1, n2) := (i, i + 1) in
  format_d 8 i +:+ " " +:+ format_d 8 n1 +:+ " " +:+ format_d 8 n2 +:+ LF.

Definition elem2d_second (i : Z) : string :=
  let '(n2, n3) := (i + 1, i + 2) in
  format_d 8 n2 +:+ " " +:+ format_d 8 n3 +:+ " " +:+ format_d 8 (i mod 8 + 1) +:+ LF.

(** The text written for index [i] by the loop of [nod3d.out]. *)
Definition nod3d_record (i : Z) : string :=
  let lon := fadd (float_literal 300 1) (fmul (float_of_int (i mod 10)) (float_literal 1 10)) in
  let lat := fadd (float_literal 74 1) (fmul (float_of_int (i mod 10)) (float_literal 5 100)) in
  let depth := fmul (fneg (float_literal 100 1)) (float_of_int (i / 10)) in
  format_d 8 i +:+ " " +:+ format_wf 14 7 lon +:+ "  " +:+ format_wf 14 7 lat
  +:+ " " +:+ format_wf 14 7 depth +:+ "        0" +:+ LF.

(** The text written for index [i] by the loop of [elem3d.out]. *)
Definition elem3d_record (i : Z) : string :=
  let '(n1, n2, n3, n4) := (i, i + 1, i + 2, i + 10) in
  format_d 8 n1 +:+ " " +:+ format_d 8 n2 +:+ " " +:+ format_d 8 n3 +:+ " "
  +:+ format_d 8 n4 +:+ LF.

(** The text written for index [i] by the loop of [depth.out]. *)
Definition depth_record (i : Z) : string :=
  "   " +:+ format_f 1 (fsub (fneg (float_literal 100 1)) (float_of_int (i * 50))) +:+ LF.

Definition _create_minimal_mesh_files (mesh_dir : Path) : M unit :=
  with_open_w (joinpath mesh_dir "nod2d.out") (fun f =>
    f_write f ("10" +:+ LF);;
    for_each (range 1 11) (fun i => f_write f (nod2d_record i)));;
  with_open_w (joinpath mesh_dir "elem2d.out") (fun f =>
    f_write f ("5" +:+ LF);;
    for_each (range 1 6) (fun i =>
      f_write f (elem2d_first i);;
      f_write f (elem2d_second i)));;
  with_open_w (joinpath mesh_dir "nod3d.out") (fun f =>
    f_write f ("30" +:+ LF);;
    for_each (range 1 31) (fun i => f_write f (nod3d_record i)));;
  with_open_w (joinpath mesh_dir "elem3d.out") (fun f =>
    f_write f ("10" +:+ LF);;
    for_each (range 1 11) (fun i => f_write f (elem3d_record i)));;
  with_open_w (joinpath mesh_dir "aux3d.out") (fun f =>
    f_write f ("3" +:+ LF);;
    f_write f ("       1" +:+ LF);;
    f_write f ("      11" +:+ LF);;
    f_write f ("      21" +:+ LF));;
  with_open_w (joinpath mesh_dir "depth.out") (fun f =>
    for_each (range 0 10) (fun i => f_write f (depth_record i))).

Definition generate_stub_datadir (stub_dir : Path) : M Path :=
  stub_dir ← generate_stub_files stub_manifest_path stub_dir;
  let mesh_dir :=
    joinpath (joinpath (joinpath (joinpath stub_dir "input") "fesom") "mesh") "pi" in
  mkdir_parents mesh_dir;;
  _create_minimal_mesh_files mesh_dir;;
  mret stub_dir.

(** [self.datadir], the memoized property of [BaseModelRun], and
    [xr.open_mfdataset(files, **kwargs)], both owned by other packages. *)
Variable Dataset Kwargs : Type.
Variable datadir : M Path.
Variable xr_open_mfdataset : list Path -> Kwargs -> M Dataset.

Definition open_mfdataset (kwargs : Kwargs) : M Dataset :=
  d ← datadir;
  let fesom_output_dir := joinpath (joinpath d "outdata") "fesom" in
  listed ← iterdir fesom_output_dir;
  let matching_files :=
    filter (fun f => startswith (path_name f) "temp.fesom" = true) listed in
  match matching_files with
  | [] => raise (FileNotFoundError
                   ("No temp.fesom* files found in " +:+ str_path fesom_output_dir))
  | _ => xr_open_mfdataset matching_files kwargs
  end.

End Run.

End Fesom2p6ModelRun.

(** ** [fesom_dev.py]: the FESOM dev (UXarray-compatible) model run *)

Module FesomDevModelRun.

Definition MESH_GIT_REPO : string := "https://gitlab.awi.de/fesom/pi".

Section Run.

(** [Path(__file__).parent], the directory of the module. *)
Variable here : Path.

(** [registry_path], [stub_manifest_path] and [cache_dir] are inherited
    from [BaseModelRun], owned by another package. *)
Variable registry_path : Path.
Variable stub_manifest_path : Path.
Variable cache_dir : Path.

Variable fetch_and_extract : string -> Path -> M Path.
Variable generate_stub_files : Path -> Path -> M Path.

(** The command runner behind [subprocess.run]. *)
Variable run_process : list string -> Z -> FS -> proc_result * FS.

(** The directories the process has no search permission on; nothing in the
    package changes a permission. *)
Variable unsearchable : gset Path.

Definition configs : M (gmap string Path) :=
  let configs : gmap string Path := ∅ in
  let fixtures_dir := joinpath here "fixtures" in
  let cmip6_config := joinpath fixtures_dir "config_cmip6_fesom_dev.yaml" in
  found6 ← path_exists_in unsearchable cmip6_config;
  let configs := if found6 : bool then <["cmip6" := cmip6_config]> configs else configs in
  let cmip7_config := joinpath fixtures_dir "config_cmip7_fesom_dev.yaml" in
  found7 ← path_exists_in unsearchable cmip7_config;
  let configs := if found7 : bool then <["cmip7" := cmip7_config]> configs else configs in
  mret configs.

Definition fetch_real_datadir : M Path :=
  fetch_and_extract "pi_uxarray.tar" registry_path.

Definition generate_stub_datadir (stub_dir : Path) : M Path :=
  generate_stub_files stub_manifest_path stub_dir;;
  mret stub_dir.

(** The handlers of the [try] in [fetch_real_meshdir]. *)
Definition clone_handlers (e : exn) : option (M unit) :=
  match e with
  | TimeoutExpired _ timeout =>
      Some (raise (RuntimeError
              ("Git clone timed out after " +:+ str_int timeout +:+ " seconds")))
  | FileNotFoundError _ =>
      Some (raise (RuntimeError "git command not found. Please install git."))
  | _ => None
  end.

Definition fetch_real_meshdir : M Path :=
  let mesh_dir := joinpath cache_dir "pi_mesh_git" in
  cached ← (found ← path_exists mesh_dir;
            if found : bool then path_exists (joinpath mesh_dir ".git") else mret false);
  if cached : bool then
    logger_info ("Using cached git mesh repository: " +:+ str_path mesh_dir);;
    mret mesh_dir
  else
    logger_info ("Cloning FESOM PI mesh from " +:+ MESH_GIT_REPO +:+ "...");;
    try_except
      (result ← subprocess_run run_process ["git"; "lfs"; "version"] 10;
       (if bool_decide (returncode result ≠ 0) then
          raise (RuntimeError
            ("git-lfs is not installed. Please install git-lfs to download mesh data."
             +:+ LF +:+ "See: https://git-lfs.github.com/"))
        else mret tt);;
       found ← path_exists mesh_dir;
       (if found : bool then shutil_rmtree mesh_dir else mret tt);;
       result ← subprocess_run run_process
                  ["git"; "clone"; MESH_GIT_REPO; str_path mesh_dir] 300;
       (if bool_decide (returncode result ≠ 0) then
          let error_msg :=
            "Failed to clone mesh repository from " +:+ MESH_GIT_REPO +:+ LF
            +:+ "Git error: " +:+ stderr result +:+ LF
            +:+ "Git output: " +:+ stdout result +:+ LF in
          logger_error error_msg;;
          raise (RuntimeError error_msg)
        else mret tt);;
       logger_info ("Mesh repository cloned to: " +:+ str_path mesh_dir))
      clone_handlers;;
    mret mesh_dir.

(** [_create_minimal_mesh_files] of this file, lines 187 to 239. *)

(** The text written for index [i] by the loop of [nod2d.out]. *)
Definition nod2d_record (i : Z) : string :=
  let lon := fadd (float_literal 300 1) (fmul (float_of_int i) (float_literal 1 10)) in
  let lat := fadd (float_literal 74 1) (fmul (float_of_int i) (float_literal 5 100)) in
  format_d 8 i +:+ " " +:+ format_wf 14 7 lon +:+ "  " +:+ format_wf 14 7 lat
  +:+ "        0" +:+ LF.

(** The two lines written for index [i] by the loop of [elem2d.out]. *)
Definition elem2d_first (i : Z) : string :=
  let '(n1, n2) := (i, i + 1) in
  format_d 8 i +:+ " " +:+ format_d 8 n1 +:+ " " +:+ format_d 8 n2 +:+ LF.

Definition elem2d_second (i : Z) : string :=
  let '(n2, n3) := (i + 1, i + 2) in
  format_d 8 n2 +:+ " " +:+ format_d 8 n3 +:+ " " +:+ format_d 8 (i mod 8 + 1) +:+ LF.

(** The text written for index [i] by the loop of [nod3d.out]. *)
Definition nod3d_record (i : Z) : string :=
  let lon := fadd (float_literal 300 1) (fmul (float_of_int (i mod 10)) (float_literal 1 10)) in
  let lat := fadd (float_literal 74 1) (fmul (float_of_int (i mod 10)) (float_literal 5 100)) in
  let depth := fmul (fneg (float_literal 100 1)) (float_of_int (i / 10)) in
  format_d 8 i +:+ " " +:+ format_wf 14 7 lon +:+ "  " +:+ format_wf 14 7 lat
  +:+ " " +:+ format_wf 14 7 depth +:+ "        0" +:+ LF.

(** The text written for index [i] by the loop of [elem3d.out]. *)
Definition elem3d_record (i : Z) : string :=
  let '(n1, n2, n3, n4) := (i, i + 1, i + 2, i + 10) in
  format_d 8 n1 +:+ " " +:+ format_d 8 n2 +:+ " " +:+ format_d 8 n3 +:+ " "
  +:+ format_d 8 n4 +:+ LF.

(** The text written for index [i] by the loop of [depth.out]. *)
Definition depth_record (i : Z) : string :=
  "   " +:+ format_f 1 (fsub (fneg (float_literal 100 1)) (float_of_int (i * 50))) +:+ LF.

Definition _create_minimal_mesh_files (mesh_dir : Path) : M unit :=
  with_open_w (joinpath mesh_dir "nod2d.out") (fun f =>
    f_write f ("10" +:+ LF);;
    for_each (range 1 11) (fun i => f_write f (nod2d_record i)));;
  with_open_w (joinpath mesh_dir "elem2d.out") (fun f =>
    f_write f ("5" +:+ LF);;
    for_each (range 1 6) (fun i =>
      f_write f (elem2d_first i);;
      f_write f (elem2d_second i)));;
  with_open_w (joinpath mesh_dir "nod3d.out") (fun f =>
    f_write f ("30" +:+ LF);;
    for_each (range 1 31) (fun i => f_write f (nod3d_record i)));;
  with_open_w (joinpath mesh_dir "elem3d.out") (fun f =>
    f_write f ("10" +:+ LF);;
    for_each (range 1 11) (fun i => f_write f (elem3d_record i)));;
  with_open_w (joinpath mesh_dir "aux3d.out") (fun f =>
    f_write f ("3" +:+ LF);;
    f_write f ("       1" +:+ LF);;
    f_write f ("      11" +:+ LF);;
    f_write f ("      21" +:+ LF));;
  with_open_w (joinpath mesh_dir "depth.out") (fun f =>
    for_each (range 0 10) (fun i => f_write f (depth_record i))).

Definition generate_stub_meshdir (stub_dir : Path) : M Path :=
  generate_stub_files stub_manifest_path stub_dir;;
  _create_minimal_mesh_files stub_dir;;
  mret stub_dir.

(** [self.datadir], the memoized property of [BaseModelRun], and
    [xr.open_mfdataset(files, **kwargs)], both owned by other packages. *)
Variable Dataset Kwargs : Type.
Variable datadir : M Path.
Variable xr_open_mfdataset : list Path -> Kwargs -> M Dataset.

Definition open_mfdataset (kwargs : Kwargs) : M Dataset :=
  d ← datadir;
  nc_files ← glob_star d ".nc";
  match nc_files with
  | [] => d' ← datadir;
          raise (FileNotFoundError ("No NetCDF files found in " +:+ str_path d'))
  | _ => xr_open_mfdataset nc_files kwargs
  end.

End Run.

End FesomDevModelRun.

(** ** Vocabulary of the statements *)

Module MeshSpec.

(** Concatenation of the texts handed to successive [f.write] calls. *)
Definition join (chunks : list string) : string := foldr String.append "" chunks.

Definition mesh_names : list string :=
  ["nod2d.out"; "elem2d.out"; "nod3d.out"; "elem3d.out"; "aux3d.out"; "depth.out"].

(** [open(p, "w")] succeeds: the parent is a directory and [p] is not one. *)
Definition can_write (fs : FS) (p : Path) : bool :=
  match p with
  | [] => false
  | _ :: up =>
      match node_at fs up with
      | Some Dir => match fs !! p with Some Dir => false | _ => true end
      | _ => false
      end
  end.

(** The target directory exists and none of the six names is taken by a
    directory. *)
Definition mesh_target_ok (fs : FS) (d : Path) : bool :=
  forallb (fun name => can_write fs (joinpath d name)) mesh_names.

(** [p] is an entry of the directory [d]. *)
Definition is_child (d p : Path) : bool :=
  match p with
  | [] => false
  | _ :: up => bool_decide (up = d)
  end.

(** The target directory exists and has nothing in it. *)
Definition empty_dir (fs : FS) (d : Path) : bool :=
  match node_at fs d with Some Dir => true | _ => false end
  && forallb (fun entry => negb (is_child d entry.1)) (map_to_list fs).

(** The whole text of each mesh file, from the records of the first variant. *)
Definition nod2d_text : string :=
  join (("10" +:+ LF) :: map Fesom2p6ModelRun.nod2d_record (range 1 11)).
Definition elem2d_text : string :=
  join (("5" +:+ LF)
        :: map (fun i => Fesom2p6ModelRun.elem2d_first i +:+ Fesom2p6ModelRun.elem2d_second i)
               (range 1 6)).
Definition nod3d_text : string :=
  join (("30" +:+ LF) :: map Fesom2p6ModelRun.nod3d_record (range 1 31)).
Definition elem3d_text : string :=
  join (("10" +:+ LF) :: map Fesom2p6ModelRun.elem3d_record (range 1 11)).
Definition aux3d_text : string :=
  join ["3" +:+ LF; "       1" +:+ LF; "      11" +:+ LF; "      21" +:+ LF].
Definition depth_text : string :=
  join (map Fesom2p6ModelRun.depth_record (range 0 10)).

Definition mesh_text (name : string) : option string :=
  if decide (name = "nod2d.out") then Some nod2d_text
  else if decide (name = "elem2d.out") then Some elem2d_text
  else if decide (name = "nod3d.out") then Some nod3d_text
  else if decide (name = "elem3d.out") then Some elem3d_text
  else if decide (name = "aux3d.out") then Some aux3d_text
  else if decide (name = "depth.out") then Some depth_text
  else None.

(** The file system once the six files are written into [d]. *)
Definition with_mesh (d : Path) (fs : FS) : FS :=
  <[joinpath d "depth.out" := File depth_text]>
  (<[joinpath d "aux3d.out" := File aux3d_text]>
  (<[joinpath d "elem3d.out" := File elem3d_text]>
  (<[joinpath d "nod3d.out" := File nod3d_text]>
  (<[joinpath d "elem2d.out" := File elem2d_text]>
  (<[joinpath d "nod2d.out" := File nod2d_text]> fs))))).

(** Running a procedure [n] times in a row. *)
Fixpoint run_times (n : nat) (m : M unit) : M unit :=
  match n with
  | O => mret tt
  | S k => m;; run_times k m
  end.

(** A body that does nothing but append [s] to the open file [f]. *)
Definition appends (f : Path) (s : string) (body : M unit) : Prop :=
  ∀ w c, fs w !! f = Some (File c) →
         body w = Ret tt (set_fs w (<[f := File (c +:+ s)]> (fs w))).

(** The coordinates the specification gives the node of index [i]:
    300.0 + i x 0.1 and 74.0 + i x 0.05, as exact rationals. *)
Definition lon_exact (i : Z) : Q := 300 + inject_Z i * (1 # 10).
Definition lat_exact (i : Z) : Q := 74 + inject_Z i * (5 # 100).

(** The decimal expansion of [q] cut after [p] digits; it is the whole
    expansion when [q * 10^p] is an integer. *)
Definition decimal_text (p : nat) (q : Q) : string :=
  fixed_text p (Qfloor (q * inject_Z (10 ^ Z.of_nat p))).

Definition has_decimals (p : nat) (q : Q) : Prop :=
  inject_Z (Qfloor (q * inject_Z (10 ^ Z.of_nat p))) == q * inject_Z (10 ^ Z.of_nat p).

(** The record of [nod2d.out] at index [i] in the words of the
    specification: index, exact longitude, exact latitude, flag 0. *)
Definition nod2d_expected (i : Z) : string :=
  format_d 8 i +:+ " " +:+ rjust 14 " " (decimal_text 7 (lon_exact i)) +:+ "  "
  +:+ rjust 14 " " (decimal_text 7 (lat_exact i)) +:+ "        0" +:+ LF.

(** The whitespace-delimited fields of a record. *)
Definition fields (record : string) : list string := String.words record.

(** The longitude and latitude fields of a node record. *)
Definition lon_lat (record : string) : list string := take 2 (drop 1 (fields record)).

(** The index of [nod2d.out] whose coordinates the specification gives to
    record [i] of [nod3d.out]. *)
Definition cycled (i : Z) : Z := (i - 1) mod 10 + 1.

(** [sub] occurs in [s]. *)
Definition contains (s sub : string) : Prop :=
  ∃ before after, s = before +:+ sub +:+ after.

End MeshSpec.

Import MeshSpec.

(** ** Vocabulary of the statements on the stub directories *)

Module StubSpec.

(** Where the first variant puts the mesh: [input/fesom/mesh/pi] under the
    stub directory. *)
Definition mesh_subdir (stub_dir : Path) : Path :=
  joinpath (joinpath (joinpath (joinpath stub_dir "input") "fesom") "mesh") "pi".

(** Going up from [p], the first path that exists is a directory. *)
Fixpoint dirs_clear (fs : FS) (p : Path) : bool :=
  match p with
  | [] => true
  | _ :: up =>
      match node_at fs p with
      | Some Dir => true
      | Some (File _) => false
      | None => dirs_clear fs up
      end
  end.

(** The file system with [p] and its missing parents made directories. *)
Fixpoint make_dirs (p : Path) (fs : FS) : FS :=
  match p with
  | [] => fs
  | _ :: up =>
      match node_at fs p with
      | Some _ => fs
      | None => <[p := Dir]> (make_dirs up fs)
      end
  end.

(** The mesh directory of the first variant can be made under [stub_dir]
    and none of the six names is taken by a directory there. *)
Definition stub_target_ok (fs : FS) (stub_dir : Path) : bool :=
  dirs_clear fs (mesh_subdir stub_dir)
  && forallb (fun name =>
                match fs !! joinpath (mesh_subdir stub_dir) name with
                | Some Dir => false
                | _ => true
                end) mesh_names.

(** The six mesh files are in the directory [d], with their contents. *)
Definition holds_mesh (fs : FS) (d : Path) : Prop :=
  ∀ name, name ∈ mesh_names → fs !! joinpath d name = File <$> mesh_text name.

End StubSpec.

Import StubSpec.

(** ** Vocabulary of the statements on the config lookup *)

Module ConfigSpec.

(** [p.exists()] in the file system [fs]. *)
Definition found (fs : FS) (p : Path) : bool := bool_decide (is_Some (node_at fs p)).

(** The mapping [m] has the key "cmip6" exactly when the file [cmip6]
    exists and the key "cmip7" exactly when the file [cmip7] does, each
    mapped to its file, and no other key. *)
Definition lists_existing (fs : FS) (cmip6 cmip7 : Path) (m : gmap string Path) : Prop :=
  m !! "cmip6" = (if found fs cmip6 then Some cmip6 else None)
  ∧ m !! "cmip7" = (if found fs cmip7 then Some cmip7 else None)
  ∧ (∀ k, k ≠ "cmip6" → k ≠ "cmip7" → m !! k = None)
  ∧ (found fs cmip6 = false → found fs cmip7 = false → m = ∅).

(** The directory [d] and every directory above it can be searched. *)
Definition can_search (unsearchable : gset Path) (fs : FS) (d : Path) : bool :=
  negb (denied unsearchable fs (joinpath d "any")).

End ConfigSpec.

Import ConfigSpec.

(** ** Vocabulary of the statements on the clone cache *)

Module CloneSpec.

Definition mesh_cache (cache_dir : Path) : Path := joinpath cache_dir "pi_mesh_git".

(** The cache holds a completed clone: [pi_mesh_git] exists and so does the
    [.git] folder in it. *)
Definition is_cached (cache_dir : Path) (fs : FS) : bool :=
  bool_decide (is_Some (node_at fs (mesh_cache cache_dir)))
  && bool_decide (is_Some (node_at fs (joinpath (mesh_cache cache_dir) ".git"))).

Definition probe_args : list string := ["git"; "lfs"; "version"].

Definition clone_args (cache_dir : Path) : list string :=
  ["git"; "clone"; FesomDevModelRun.MESH_GIT_REPO; str_path (mesh_cache cache_dir)].

(** The file system the clone command starts from: a partial previous clone
    is removed; there is none when [pi_mesh_git] is a plain file, which
    [shutil.rmtree] refuses. *)
Definition cleared (cache_dir : Path) (fs : FS) : option FS :=
  match node_at fs (mesh_cache cache_dir) with
  | None => Some fs
  | Some Dir => Some (filter (fun kv => ¬ (mesh_cache cache_dir `suffix_of` kv.1)) fs)
  | Some (File _) => None
  end.

(** Calling a procedure [n] times in a row, collecting what it returns. *)
Fixpoint call_times {A} (n : nat) (m : M A) : M (list A) :=
  match n with
  | O => mret []
  | S k => a ← m; rest ← call_times k m; mret (a :: rest)
  end.

(** The messages of the errors [fetch_real_meshdir] raises. *)
Definition git_missing_message : string := "git command not found. Please install git.".

Definition lfs_missing_message : string :=
  "git-lfs is not installed. Please install git-lfs to download mesh data."
  +:+ LF +:+ "See: https://git-lfs.github.com/".

Definition clone_failed_message (out err : string) : string :=
  "Failed to clone mesh repository from " +:+ FesomDevModelRun.MESH_GIT_REPO +:+ LF
  +:+ "Git error: " +:+ err +:+ LF
  +:+ "Git output: " +:+ out +:+ LF.

Definition timeout_message (timeout : Z) : string :=
  "Git clone timed out after " +:+ str_int timeout +:+ " seconds".

End CloneSpec.

Import CloneSpec.

(** ** Sample worlds *)

Module Samples.

(** A temporary directory [/tmp/stub], empty. *)
Definition stub_dir : Path := ["stub"; "tmp"].

Definition fresh_world : World :=
  {| fs := <[stub_dir := Dir]> (<[["tmp"] := Dir]> ∅); logs := []; calls := [] |}.

(** A manifest interpreter that writes the one data file of its manifest. *)
Definition manifest : Path := ["stub_manifest.yaml"; "pkg"].

Definition one_file_interpreter (manifest stub_dir : Path) : M Path :=
  with_open_w (joinpath stub_dir "temp.fesom.1850.nc") (fun f => f_write f "CDF");;
  mret stub_dir.

(** A home directory whose cache holds a completed clone of the mesh. *)
Definition cache_dir : Path := ["pycmor"; ".cache"; "user"; "home"].

Definition cached_world : World :=
  {| fs := <[joinpath (mesh_cache cache_dir) ".git" := Dir]>
           (<[mesh_cache cache_dir := Dir]>
           (<[cache_dir := Dir]> ∅));
     logs := []; calls := [] |}.

(** The same home directory before any clone. *)
Definition uncached_world : World :=
  {| fs := <[cache_dir := Dir]> ∅; logs := []; calls := [] |}.

(** A git whose large-file extension answers and whose clone fails. *)
Definition failing_git (args : list string) (timeout : Z) (fs : FS) : proc_result * FS :=
  match args with
  | ["git"; "lfs"; "version"] => (Completed 0 "git-lfs/3.4.0" "", fs)
  | _ => (Completed 128 "Cloning into pi_mesh_git..." "fatal: unable to access the remote", fs)
  end.

End Samples.

(** ** Vocabulary of the statements on the layout of the mesh files *)

Module MeshLayout.

(** The lines of a text, without their newline. *)
Fixpoint lines_from (current : string) (s : string) : list string :=
  match s with
  | EmptyString => if decide (current = "") then [] else [String.rev current]
  | String c rest =>
      if decide (c = "010"%char) then String.rev current :: lines_from "" rest
      else lines_from (String c current) rest
  end.

Definition lines (s : string) : list string := lines_from "" s.

(** The text starts with a header line giving the number of records, each
    record taking [per_record] lines. *)
Definition counted (per_record : nat) (text : string) : Prop :=
  ∃ n body, lines text = str_int (Z.of_nat n) :: body
            ∧ length body = (per_record * n)%nat.

(** Every line after the first [skip] has [width] characters. *)
Definition fixed_width (skip width : nat) (text : string) : Prop :=
  Forall (fun l => String.length l = width) (drop skip (lines text)).

(** Every field of every line after the header is the index of one of the
    nodes 1 to [nodes]. *)
Definition refers_to_nodes (nodes : Z) (text : string) : Prop :=
  Forall (fun l => Forall (fun f => f ∈ map str_int (range 1 (nodes + 1))) (fields l))
         (drop 1 (lines text)).

(** The coordinates of a record of [nod3d.out]: longitude, latitude, depth. *)
Definition point3d (record : string) : list string := take 3 (drop 1 (fields record)).

(** The file [name] of the directory [d] exists and its text satisfies [P]. *)
Definition written (fs : FS) (d : Path) (name : string) (P : string → Prop) : Prop :=
  ∃ text, fs !! joinpath d name = Some (File text) ∧ P text.

(** The world an outcome ends in. *)
Definition world_of {A} (o : outcome A) : World :=
  match o with
  | Ret _ w => w
  | Raise _ w => w
  end.

(** The errors [open(p, "w")] raises. *)
Definition open_error (e : exn) : Prop :=
  match e with
  | FileNotFoundError _ | NotADirectoryError _ | IsADirectoryError _ => True
  | _ => False
  end.

(** The path [q] is none of the six mesh files of the directory [d]. *)
Definition off_mesh (d q : Path) : Prop :=
  ∀ name, name ∈ mesh_names → q ≠ joinpath d name.

(** The errors [mkdir(parents=True, exist_ok=True)] raises. *)
Definition mkdir_error (e : exn) : Prop :=
  match e with
  | FileExistsError _ | NotADirectoryError _ => True
  | _ => False
  end.

(** Nothing exists at [d] or below it. *)
Definition nothing_below (fs : FS) (d : Path) : bool :=
  forallb (fun q => negb (bool_decide (d `suffix_of` q))) (map_to_list fs).*1.

(** [q] is an entry of the directory [d] in [fs] whose name satisfies [keep]. *)
Definition entry_with (fs : FS) (d : Path) (keep : string → bool) (q : Path) : Prop :=
  (∃ name, q = joinpath d name ∧ keep name = true) ∧ is_Some (fs !! q).

End MeshLayout.

Import MeshLayout.

(** ** More sample worlds *)

Module MoreSamples.

(** Only [/tmp] exists. *)
Definition bare_world : World :=
  {| fs := <[["tmp"] := Dir]> ∅; logs := []; calls := [] |}.

(** An interpreter with an empty manifest: it returns the directory it was
    given and touches nothing. *)
Definition idle_interpreter (manifest stub_dir : Path) : M Path := mret stub_dir.

(** A cache with a partial clone: [pi_mesh_git] holds a file but no [.git]. *)
Definition partial_world : World :=
  {| fs := <[joinpath (mesh_cache Samples.cache_dir) "README.md" := File "stale"]>
           (<[mesh_cache Samples.cache_dir := Dir]>
           (<[Samples.cache_dir := Dir]> ∅));
     logs := []; calls := [] |}.

(** A git whose clone makes the repository with its [.git] folder. *)
Definition working_git (args : list string) (timeout : Z) (fs : FS) : proc_result * FS :=
  match args with
  | ["git"; "lfs"; "version"] => (Completed 0 "git-lfs/3.4.0" "", fs)
  | _ => (Completed 0 "" "Cloning into pi_mesh_git...",
          <[joinpath (mesh_cache Samples.cache_dir) ".git" := Dir]>
          (<[mesh_cache Samples.cache_dir := Dir]> fs))
  end.

(** A git without its large-file extension. *)
Definition git_without_lfs (args : list string) (timeout : Z) (fs : FS)
    : proc_result * FS :=
  (Completed 1 "" "git: 'lfs' is not a git command.", fs).

(** A cache in which [pi_mesh_git] is a plain file. *)
Definition file_world : World :=
  {| fs := <[mesh_cache Samples.cache_dir := File "not a repository"]>
           (<[Samples.cache_dir := Dir]> ∅);
     logs := []; calls := [] |}.

(** A data directory [/tmp/data] with two files under [outdata/fesom], one of
    them a [temp.fesom] file, and one NetCDF file at its top. *)
Definition data_dir : Path := ["data"; "tmp"].
Definition output_dir : Path := joinpath (joinpath data_dir "outdata") "fesom".

Definition data_world : World :=
  {| fs := <[joinpath output_dir "temp.fesom.1850.nc" := File "CDF"]>
           (<[joinpath output_dir "salt.fesom.1850.nc" := File "CDF"]>
           (<[output_dir := Dir]>
           (<[joinpath data_dir "outdata" := Dir]>
           (<[joinpath data_dir "pi.nc" := File "CDF"]>
           (<[joinpath data_dir "README" := File "text"]>
           (<[data_dir := Dir]>
           (<[["tmp"] := Dir]> ∅)))))));
     logs := []; calls := [] |}.

(** An installed package whose [fixtures] directory holds the cmip6 config
    of each variant, and the set of directories to lock it with. *)
Definition package_dir : Path := ["pycmor_test_data_fesom"; "site-packages"].
Definition fixtures_dir : Path := joinpath package_dir "fixtures".

Definition package_world : World :=
  {| fs := <[joinpath fixtures_dir "config_cmip6_fesom_dev.yaml" := File "rules: []"]>
           (<[joinpath fixtures_dir "config_cmip6_fesom_2p6.yaml" := File "rules: []"]>
           (<[fixtures_dir := Dir]>
           (<[package_dir := Dir]>
           (<[["site-packages"] := Dir]> ∅))));
     logs := []; calls := [] |}.

Definition locked_fixtures : gset Path := {[ fixtures_dir ]}.

(** An opener that returns the files it was handed. *)
Definition listing_opener (files : list Path) (kwargs : list string) : M (list Path) :=
  mret files.

End MoreSamples.

(** ** The number model on known values *)

Section Numbers.

(** The literals [0.1] and [0.05] are the binary64 values
    [0x1.999999999999ap-4] and [0x1.999999999999ap-5]. *)
Example literal_0_1 : float_literal 1 10 = S754_finite false 7205759403792794 (-56).
Proof. reflexivity. Qed.

Example literal_0_05 : float_literal 5 100 = S754_finite false 7205759403792794 (-57).
Proof. reflexivity. Qed.

(** [3 * 0.1] is not [0.3], yet [300.0 + 3 * 0.1] prints as 300.3. *)
Example three_tenths :
  fmul (float_of_int 3) (float_literal 1 10) ≠ float_literal 3 10
  ∧ format_f 17 (fmul (float_of_int 3) (float_literal 1 10)) = "0.30000000000000004"
  ∧ format_f 7 (fadd (float_literal 300 1) (fmul (float_of_int 3) (float_literal 1 10)))
    = "300.3000000".
Proof. repeat split; [discriminate|vm_compute; reflexivity..]. Qed.

(** Formatting rounds the binary value, ties to even: [format(0.125, ".2f")]
    is 0.12 and [format(2.675, ".2f")] is 2.67. *)
Example format_f_rounding :
  format_f 2 (float_literal 125 1000) = "0.12"
  ∧ format_f 2 (float_literal 2675 1000) = "2.67"
  ∧ format_f 0 (float_literal 5 2) = "2"
  ∧ format_f 0 (float_literal 7 2) = "4".
Proof. repeat split; vm_compute; reflexivity. Qed.

(** [-100.0 * 0] is the negative zero, printed with its sign. *)
Example negative_zero :
  fmul (fneg (float_literal 100 1)) (float_of_int 0) = S754_zero true
  ∧ format_wf 14 7 (S754_zero true) = "    -0.0000000".
Proof. repeat split; vm_compute; reflexivity. Qed.

Example format_d_widths :
  format_d 8 12 = "      12" ∧ format_d 8 (-3) = "      -3" ∧ format_d 2 12345 = "12345".
Proof. repeat split; vm_compute; reflexivity. Qed.

Example str_path_absolute :
  str_path ["stub"; "tmp"] = "/tmp/stub" ∧ str_path [] = "/".
Proof. split; reflexivity. Qed.

End Numbers.

(** ** The monad and the file operations *)

Section Runtime.

Lemma append_assoc (s t u : string) : (s +:+ t) +:+ u = s +:+ (t +:+ u).
Proof.
  induction s as [|a s IH]; [reflexivity|].
  change (String a ((s +:+ t) +:+ u) = String a (s +:+ (t +:+ u))).
  by rewrite IH.
Qed.

Lemma append_empty_r (s : string) : s +:+ "" = s.
Proof.
  induction s as [|a s IH]; [reflexivity|].
  change (String a (s +:+ "") = String a s). by rewrite IH.
Qed.

Lemma bind_raise {A B} (m : M A) (k : A → M B) w e w' :
  m w = Raise e w' → (m ≫= k) w = Raise e w'.
Proof. intros H. unfold mbind, M_bind, bind. by rewrite H. Qed.

Lemma bind_ret {A B} (m : M A) (k : A → M B) w a w' :
  m w = Ret a w' → (m ≫= k) w = k a w'.
Proof. intros H. unfold mbind, M_bind, bind. by rewrite H. Qed.

Lemma set_fs_id w : set_fs w (fs w) = w.
Proof. by destruct w. Qed.

Lemma appends_write f s : appends f s (f_write f s).
Proof. intros w c H. unfold f_write. by rewrite H. Qed.

Lemma appends_skip f : appends f "" (mret tt).
Proof.
  intros w c H. rewrite append_empty_r, insert_id by done.
  by rewrite set_fs_id.
Qed.

Lemma appends_bind f s1 s2 (b1 b2 : M unit) :
  appends f s1 b1 → appends f s2 b2 → appends f (s1 +:+ s2) (b1;; b2).
Proof.
  intros H1 H2 w c Hc.
  erewrite bind_ret by (by apply H1).
  rewrite (H2 _ (c +:+ s1)) by (by simpl; rewrite lookup_insert_eq).
  simpl. by rewrite insert_insert_eq, append_assoc.
Qed.

Lemma appends_for_each {A} f (xs : list A) (t : A → string) (body : A → M unit) :
  (∀ x, appends f (t x) (body x)) →
  appends f (join (map t xs)) (for_each xs body).
Proof.
  intros H. induction xs as [|x xs IH]; simpl.
  - apply appends_skip.
  - by apply appends_bind.
Qed.

Lemma with_open_w_appends p s (body : Path → M unit) w :
  can_write (fs w) p = true →
  appends p s (body p) →
  with_open_w p body w = Ret tt (set_fs w (<[p := File s]> (fs w))).
Proof.
  intros Hok Hb. unfold with_open_w. destruct p as [|n up]; [done|].
  simpl in Hok. destruct (node_at (fs w) up) as [[|?]|]; try done.
  assert (body (n :: up) (set_fs w (<[n :: up := File ""]> (fs w)))
          = Ret tt (set_fs w (<[n :: up := File s]> (fs w)))) as ->.
  { rewrite (Hb _ "") by (by simpl; rewrite lookup_insert_eq).
    simpl. by rewrite insert_insert_eq. }
  by destruct (fs w !! (n :: up)) as [[|?]|].
Qed.

Lemma cons_neq {A} (x : A) (l : list A) : x :: l ≠ l.
Proof. intros H. apply (f_equal length) in H. simpl in H. lia. Qed.

Lemma node_at_insert_child fs (d : Path) name v :
  node_at (<[joinpath d name := v]> fs) d = node_at fs d.
Proof.
  destruct d as [|x d]; [done|]. simpl.
  apply lookup_insert_ne, cons_neq.
Qed.

Lemma can_write_insert_file fs d name name' t :
  can_write fs (joinpath d name) = true →
  can_write (<[joinpath d name' := File t]> fs) (joinpath d name) = true.
Proof.
  unfold can_write, joinpath.
  pose proof (node_at_insert_child fs d name' (File t)) as Hd.
  unfold joinpath in Hd. rewrite Hd.
  destruct (node_at fs d) as [[|?]|]; try done.
  rewrite lookup_insert. case_decide; [done|].
  by destruct (fs !! (name :: d)) as [[|?]|].
Qed.

End Runtime.

(** ** The mesh synthesizer *)

Section MeshSynthesizer.

Ltac solve_appends :=
  repeat first
    [ eapply appends_for_each; intros ?
    | apply appends_write
    | eapply appends_bind ].

Lemma mesh_target_ok_names fs d :
  mesh_target_ok fs d = true →
  ∀ name, name ∈ mesh_names → can_write fs (joinpath d name) = true.
Proof.
  unfold mesh_target_ok. rewrite forallb_forall.
  intros H name Hin. apply H. by apply list_elem_of_In.
Qed.

Lemma mesh_target_ok_with_mesh fs d :
  mesh_target_ok fs d = true → mesh_target_ok (with_mesh d fs) d = true.
Proof.
  intros H. unfold mesh_target_ok. rewrite forallb_forall.
  intros name Hin%list_elem_of_In. unfold with_mesh.
  repeat apply can_write_insert_file.
  by apply mesh_target_ok_names.
Qed.

Lemma with_mesh_idemp d fs : with_mesh d (with_mesh d fs) = with_mesh d fs.
Proof.
  apply map_eq. intros p. unfold with_mesh.
  rewrite !lookup_insert. by repeat case_decide.
Qed.

(** What the synthesizer of the first variant does on a writable target. *)
Lemma create_minimal_mesh_files_run d w :
  mesh_target_ok (fs w) d = true →
  Fesom2p6ModelRun._create_minimal_mesh_files d w
  = Ret tt (set_fs w (with_mesh d (fs w))).
Proof.
  intros Hok. pose proof (mesh_target_ok_names _ _ Hok) as Hn.
  unfold Fesom2p6ModelRun._create_minimal_mesh_files.
  erewrite bind_ret; cycle 1.
  { apply with_open_w_appends; [apply Hn; set_solver|solve_appends]. }
  erewrite bind_ret; cycle 1.
  { apply with_open_w_appends;
      [simpl; repeat apply can_write_insert_file; apply Hn; set_solver|solve_appends]. }
  erewrite bind_ret; cycle 1.
  { apply with_open_w_appends;
      [simpl; repeat apply can_write_insert_file; apply Hn; set_solver|solve_appends]. }
  erewrite bind_ret; cycle 1.
  { apply with_open_w_appends;
      [simpl; repeat apply can_write_insert_file; apply Hn; set_solver|solve_appends]. }
  erewrite bind_ret; cycle 1.
  { apply with_open_w_appends;
      [simpl; repeat apply can_write_insert_file; apply Hn; set_solver|solve_appends]. }
  rewrite with_open_w_appends with (s := depth_text);
    [|simpl; repeat apply can_write_insert_file; apply Hn; set_solver
     |unfold depth_text; solve_appends].
  reflexivity.
Qed.

End MeshSynthesizer.

(** ** The contents of the mesh files *)

Section MeshContents.

Lemma range_1_11 : range 1 11 = [1; 2; 3; 4; 5; 6; 7; 8; 9; 10].
Proof. reflexivity. Qed.

Lemma nod2d_record_exact (i : Z) :
  1 ≤ i ≤ 10 → Fesom2p6ModelRun.nod2d_record i = nod2d_expected i.
Proof.
  intros H.
  assert (i = 1 ∨ i = 2 ∨ i = 3 ∨ i = 4 ∨ i = 5 ∨ i = 6 ∨ i = 7 ∨ i = 8 ∨ i = 9 ∨ i = 10)
    as Hi by lia.
  repeat destruct Hi as [->|Hi]; try subst i; vm_compute; reflexivity.
Qed.

Lemma empty_dir_lookup fs d :
  empty_dir fs d = true →
  node_at fs d = Some Dir ∧ ∀ name, fs !! joinpath d name = None.
Proof.
  unfold empty_dir. intros [Hd Hall]%andb_true_iff. split.
  - by destruct (node_at fs d) as [[|?]|].
  - intros name. destruct (fs !! joinpath d name) as [v|] eqn:Hv; [|done].
    rewrite forallb_forall in Hall.
    apply elem_of_map_to_list, list_elem_of_In, Hall in Hv.
    simpl in Hv. by rewrite bool_decide_eq_true_2 in Hv.
Qed.

Lemma empty_dir_target_ok fs d : empty_dir fs d = true → mesh_target_ok fs d = true.
Proof.
  intros [Hd Hnone]%empty_dir_lookup.
  unfold mesh_target_ok. rewrite forallb_forall. intros name _.
  unfold can_write, joinpath. rewrite Hd.
  pose proof (Hnone name) as Hn. unfold joinpath in Hn. by rewrite Hn.
Qed.

Lemma with_mesh_lookup d fs name :
  with_mesh d fs !! joinpath d name
  = match mesh_text name with
    | Some t => Some (File t)
    | None => fs !! joinpath d name
    end.
Proof.
  unfold with_mesh, mesh_text, joinpath. rewrite !lookup_insert.
  repeat case_decide; simplify_eq; done.
Qed.

Lemma create_minimal_mesh_files_dev_eq d :
  FesomDevModelRun._create_minimal_mesh_files d
  = Fesom2p6ModelRun._create_minimal_mesh_files d.
Proof. reflexivity. Qed.

Lemma run_times_mesh d w n :
  mesh_target_ok (fs w) d = true →
  run_times (S n) (Fesom2p6ModelRun._create_minimal_mesh_files d) w
  = Ret tt (set_fs w (with_mesh d (fs w))).
Proof.
  revert w. induction n as [|n IH]; intros w Hok.
  - simpl. erewrite bind_ret by (by apply create_minimal_mesh_files_run). done.
  - change (run_times (S (S n)) ?m) with (m;; run_times (S n) m).
    erewrite bind_ret by (by apply create_minimal_mesh_files_run).
    rewrite IH by (by apply mesh_target_ok_with_mesh).
    simpl. by rewrite with_mesh_idemp.
Qed.

(** Away from the multiples of 10 the coordinates of [nod3d.out] are those
    of [nod2d.out] cycled with period 10, and every depth is -100 x (i div 10). *)
Lemma nod3d_cycle_off_multiples (i : Z) :
  1 ≤ i ≤ 30 → i mod 10 ≠ 0 →
  lon_lat (Fesom2p6ModelRun.nod3d_record i)
  = lon_lat (Fesom2p6ModelRun.nod2d_record (cycled i)).
Proof.
  intros Hi Hmod.
  assert (forallb (fun i => (i mod 10 =? 0)
                   || bool_decide (lon_lat (Fesom2p6ModelRun.nod3d_record i)
                                   = lon_lat (Fesom2p6ModelRun.nod2d_record (cycled i))))
            (range 1 31) = true) as Hall by (vm_compute; reflexivity).
  rewrite forallb_forall in Hall.
  assert (i ∈ range 1 31) as Hin by (unfold range; apply elem_of_seqZ; lia).
  apply list_elem_of_In, Hall, orb_true_iff in Hin as [Hz|Heq].
  - apply Z.eqb_eq in Hz. done.
  - by apply bool_decide_eq_true_1 in Heq.
Qed.

Lemma nod3d_depth (i : Z) :
  1 ≤ i ≤ 30 →
  fields (Fesom2p6ModelRun.nod3d_record i) !! 3%nat
  = Some ("-" +:+ decimal_text 7 (inject_Z (100 * (i / 10)))).
Proof.
  intros Hi.
  assert (forallb (fun i => bool_decide
                     (fields (Fesom2p6ModelRun.nod3d_record i) !! 3%nat
                      = Some ("-" +:+ decimal_text 7 (inject_Z (100 * (i / 10))))))
            (range 1 31) = true) as Hall by (vm_compute; reflexivity).
  rewrite forallb_forall in Hall.
  assert (i ∈ range 1 31) as Hin by (unfold range; apply elem_of_seqZ; lia).
  apply list_elem_of_In, Hall in Hin. by apply bool_decide_eq_true_1 in Hin.
Qed.

End MeshContents.

(** ** Config lookup, archive unwrapping and the clone cache *)

Section Lookups.

#[local] Arguments node_at : simpl never.
#[local] Arguments str_path : simpl never.

(** With every directory searchable the lookup with permissions is the
    plain one. *)
Lemma path_exists_in_empty (p : Path) (w : World) :
  path_exists_in ∅ p w = path_exists p w.
Proof.
  unfold path_exists_in.
  assert (denied ∅ (fs w) p = false) as ->; [|done].
  unfold denied. induction (ancestors p) as [|q l IH]; [done|].
  simpl. rewrite IH. by rewrite bool_decide_eq_false_2 by set_solver.
Qed.

Lemma call_times_cons {A} (m : M A) n w a w1 l w2 :
  m w = Ret a w1 → call_times n m w1 = Ret l w2 →
  call_times (S n) m w = Ret (a :: l) w2.
Proof.
  intros H1 H2. simpl. erewrite bind_ret by done.
  erewrite bind_ret by done. done.
Qed.

(** A cached clone is returned at once; only the logger hears of it. *)
Lemma fetch_real_meshdir_hit cache_dir run_process w :
  is_cached cache_dir (fs w) = true →
  FesomDevModelRun.fetch_real_meshdir cache_dir run_process w
  = Ret (mesh_cache cache_dir)
      {| fs := fs w;
         logs := logs w ++ [(INFO, "Using cached git mesh repository: "
                                    +:+ str_path (mesh_cache cache_dir))];
         calls := calls w |}.
Proof.
  unfold is_cached. intros [H1 H2]%andb_true_iff.
  unfold FesomDevModelRun.fetch_real_meshdir, mbind, M_bind, bind, path_exists.
  fold (mesh_cache cache_dir). rewrite H1, H2. reflexivity.
Qed.

(** Without a cached clone: the probe, the clean-up, the clone, and what
    each way they can end turns into. *)
Lemma fetch_real_meshdir_miss cache_dir run_process w :
  is_cached cache_dir (fs w) = false →
  FesomDevModelRun.fetch_real_meshdir cache_dir run_process w
  = let cloning :=
      (INFO, "Cloning FESOM PI mesh from " +:+ FesomDevModelRun.MESH_GIT_REPO +:+ "...") in
    let '(r1, fs1) := run_process probe_args 10 (fs w) in
    let w1 := {| fs := fs1; logs := logs w ++ [cloning];
                 calls := calls w ++ [probe_args] |} in
    match r1 with
    | TimedOut => Raise (RuntimeError (timeout_message 10)) w1
    | CommandNotFound => Raise (RuntimeError git_missing_message) w1
    | Completed rc1 _ _ =>
        if bool_decide (rc1 ≠ 0) then Raise (RuntimeError lfs_missing_message) w1
        else
          match cleared cache_dir fs1 with
          | None => Raise (NotADirectoryError (str_path (mesh_cache cache_dir))) w1
          | Some fs1c =>
              let '(r2, fs2) := run_process (clone_args cache_dir) 300 fs1c in
              let w2 said :=
                {| fs := fs2; logs := (logs w ++ [cloning]) ++ said;
                   calls := (calls w ++ [probe_args]) ++ [clone_args cache_dir] |} in
              match r2 with
              | TimedOut => Raise (RuntimeError (timeout_message 300)) (w2 [])
              | CommandNotFound => Raise (RuntimeError git_missing_message) (w2 [])
              | Completed rc2 out err =>
                  if bool_decide (rc2 ≠ 0)
                  then Raise (RuntimeError (clone_failed_message out err))
                         (w2 [(ERROR, clone_failed_message out err)])
                  else Ret (mesh_cache cache_dir)
                         (w2 [(INFO, "Mesh repository cloned to: "
                                     +:+ str_path (mesh_cache cache_dir))])
              end
          end
    end.
Proof.
  unfold is_cached. intros Hc.
  unfold FesomDevModelRun.fetch_real_meshdir.
  fold (mesh_cache cache_dir). fold probe_args. fold (clone_args cache_dir).
  unfold mbind, M_bind, bind at 1 2, path_exists at 1 2.
  assert ((if bool_decide (is_Some (node_at (fs w) (mesh_cache cache_dir)))
           then λ w0, Ret (bool_decide
                  (is_Some (node_at (fs w0) (joinpath (mesh_cache cache_dir) ".git")))) w0
           else mret false) w = Ret false w) as ->.
  { destruct (bool_decide (is_Some (node_at (fs w) (mesh_cache cache_dir))));
      [|done]. rewrite andb_true_l in Hc. by rewrite Hc. }
  unfold bind, try_except, subprocess_run, logger_info, logger_error, logger_log,
    path_exists, shutil_rmtree, cleared, mret, M_ret, ret, raise.
  simpl fs. simpl logs. simpl calls.
  destruct (run_process probe_args 10 (fs w)) as [[rc1 out1 err1| |] fs1]; simpl; [|done..].
  destruct (bool_decide (rc1 ≠ 0)); simpl; [done|].
  destruct (node_at fs1 (mesh_cache cache_dir)) as [[|c]|] eqn:Hnode; simpl;
    rewrite ?Hnode; simpl.
  - destruct (run_process (clone_args cache_dir) 300 _) as [[rc2 out err| |] fs2];
      simpl; [|by rewrite app_nil_r..].
    destruct (bool_decide (rc2 ≠ 0)); simpl; done.
  - done.
  - destruct (run_process (clone_args cache_dir) 300 _) as [[rc2 out err| |] fs2];
      simpl; [|by rewrite app_nil_r..].
    destruct (bool_decide (rc2 ≠ 0)); simpl; done.
Qed.

Lemma contains_here (before sub after : string) :
  contains (before +:+ sub +:+ after) sub.
Proof. by exists before, after. Qed.

Lemma clone_failed_message_err out err : contains (clone_failed_message out err) err.
Proof.
  exists ("Failed to clone mesh repository from " +:+ FesomDevModelRun.MESH_GIT_REPO
          +:+ LF +:+ "Git error: "),
         (LF +:+ "Git output: " +:+ out +:+ LF).
  unfold clone_failed_message. by rewrite !append_assoc.
Qed.

Lemma clone_failed_message_out out err : contains (clone_failed_message out err) out.
Proof.
  exists ("Failed to clone mesh repository from " +:+ FesomDevModelRun.MESH_GIT_REPO
          +:+ LF +:+ "Git error: " +:+ err +:+ LF +:+ "Git output: "), LF.
  unfold clone_failed_message. by rewrite !append_assoc.
Qed.

Lemma timeout_message_value t : contains (timeout_message t) (str_int t).
Proof. apply contains_here. Qed.

End Lookups.

(** ** Making the directories of the mesh *)

Section Directories.

#[local] Arguments node_at : simpl never.
#[local] Arguments str_path : simpl never.

Lemma make_dirs_lookup_other p fs (q : Path) :
  ¬ (q `suffix_of` p) → make_dirs p fs !! q = fs !! q.
Proof.
  induction p as [|x up IH]; intros Hq; [done|]. simpl.
  destruct (node_at fs (x :: up)); [done|].
  rewrite lookup_insert_ne.
  - apply IH. intros Hs. apply Hq. by apply suffix_cons_r.
  - intros <-. by apply Hq.
Qed.

Lemma make_dirs_node_other p fs (q : Path) :
  ¬ (q `suffix_of` p) → node_at (make_dirs p fs) q = node_at fs q.
Proof.
  intros Hq. destruct q as [|y q]; [done|].
  unfold node_at. by apply make_dirs_lookup_other.
Qed.

Lemma make_dirs_is_dir p fs :
  dirs_clear fs p = true → node_at (make_dirs p fs) p = Some Dir.
Proof.
  destruct p as [|x up]; [done|]. simpl.
  destruct (node_at fs (x :: up)) as [[|c]|] eqn:Hn; [done|done|].
  intros _. unfold node_at. apply lookup_insert_eq.
Qed.

Lemma make_dirs_existing p fs :
  is_Some (node_at fs p) → make_dirs p fs = fs.
Proof.
  destruct p as [|x up]; [done|]. simpl. by intros [v ->].
Qed.

Lemma not_suffix_cons {A} (x : A) (l : list A) : ¬ (x :: l) `suffix_of` l.
Proof. intros H%suffix_length. simpl in H. lia. Qed.

(** [mkdir(parents=True, exist_ok=True)] makes the missing directories. *)
Lemma mkdir_parents_run p w :
  dirs_clear (fs w) p = true →
  mkdir_parents p w = Ret tt (set_fs w (make_dirs p (fs w))).
Proof.
  revert w. induction p as [|x up IH]; intros w Hclear.
  - by destruct w.
  - simpl. unfold try_except, os_mkdir. simpl in Hclear.
    destruct (node_at (fs w) (x :: up)) as [[|c]|] eqn:Hp; [|done|].
    + unfold unless_is_dir, mbind, M_bind, bind, is_dir. rewrite Hp.
      by destruct w.
    + change (parent (x :: up)) with up.
      destruct (node_at (fs w) up) as [[|c]|] eqn:Hup.
      * rewrite (make_dirs_existing up) by (by rewrite Hup). done.
      * destruct up as [|y up]; [done|]. simpl in Hclear.
        by rewrite Hup in Hclear.
      * unfold mbind, M_bind, bind. rewrite IH by done.
        unfold mkdir_exist_ok, try_except, os_mkdir. simpl fs.
        rewrite make_dirs_node_other by apply not_suffix_cons.
        rewrite Hp. change (parent (x :: up)) with up.
        by rewrite make_dirs_is_dir.
Qed.

Lemma stub_target_ok_mesh fs stub_dir :
  stub_target_ok fs stub_dir = true →
  mesh_target_ok (make_dirs (mesh_subdir stub_dir) fs) (mesh_subdir stub_dir) = true.
Proof.
  unfold stub_target_ok. intros [Hclear Hnames]%andb_true_iff.
  unfold mesh_target_ok. rewrite forallb_forall in Hnames |- *.
  intros name Hin. specialize (Hnames name Hin).
  unfold can_write, joinpath in *.
  rewrite make_dirs_is_dir by done.
  rewrite make_dirs_lookup_other by apply not_suffix_cons.
  by destruct (fs !! (name :: mesh_subdir stub_dir)) as [[|?]|].
Qed.

Lemma with_mesh_holds d fs : holds_mesh (with_mesh d fs) d.
Proof.
  intros name Hin. rewrite with_mesh_lookup. unfold mesh_names in Hin.
  repeat (apply elem_of_cons in Hin as [->|Hin]; [reflexivity|]).
  by apply elem_of_nil in Hin.
Qed.

End Directories.

(** ** Properties of the mesh synthesizer *)

(** C6: on a target directory where the files can be written, the synthesizer
    of either variant returns, and [nod2d.out] then holds the header line
    "10" followed by exactly 10 records; the record at 1-based index i is the
    index, the longitude 300.0 + i x 0.1 and the latitude 74.0 + i x 0.05, both
    exact at the 7 decimals written, and the flag 0. *)
Theorem nod2d_contents (d : Path) (w : World) :
  mesh_target_ok (fs w) d = true →
  ∃ w' records,
    Fesom2p6ModelRun._create_minimal_mesh_files d w = Ret tt w'
    ∧ FesomDevModelRun._create_minimal_mesh_files d w = Ret tt w'
    ∧ fs w' !! joinpath d "nod2d.out" = Some (File (join (("10" +:+ LF) :: records)))
    ∧ length records = 10%nat
    ∧ ∀ i, 1 ≤ i ≤ 10 →
        records !! Z.to_nat (i - 1) = Some (nod2d_expected i)
        ∧ has_decimals 7 (lon_exact i) ∧ has_decimals 7 (lat_exact i).
Proof.
  intros Hok.
  exists (set_fs w (with_mesh d (fs w))), (map Fesom2p6ModelRun.nod2d_record (range 1 11)).
  pose proof (create_minimal_mesh_files_run d w Hok) as Hrun.
  split_and!; try done.
  - simpl fs. by rewrite with_mesh_lookup.
  - intros i Hi. rewrite list_lookup_fmap, range_1_11.
    assert (i = 1 ∨ i = 2 ∨ i = 3 ∨ i = 4 ∨ i = 5 ∨ i = 6 ∨ i = 7 ∨ i = 8 ∨ i = 9 ∨ i = 10)
      as Hc by lia.
    repeat destruct Hc as [->|Hc]; try subst i;
      (split_and!; [by rewrite <- nod2d_record_exact by lia | done | done]).
Qed.

Lemma nod2d_contents_witness :
  mesh_target_ok (fs Samples.fresh_world) Samples.stub_dir = true
  ∧ ∃ w' records,
      Fesom2p6ModelRun._create_minimal_mesh_files Samples.stub_dir Samples.fresh_world
      = Ret tt w'
      ∧ FesomDevModelRun._create_minimal_mesh_files Samples.stub_dir Samples.fresh_world
        = Ret tt w'
      ∧ fs w' !! joinpath Samples.stub_dir "nod2d.out"
        = Some (File (join (("10" +:+ LF) :: records)))
      ∧ length records = 10%nat
      ∧ ∀ i, 1 ≤ i ≤ 10 →
          records !! Z.to_nat (i - 1) = Some (nod2d_expected i)
          ∧ has_decimals 7 (lon_exact i) ∧ has_decimals 7 (lat_exact i).
Proof.
  split; [vm_compute; reflexivity|].
  apply (nod2d_contents Samples.stub_dir Samples.fresh_world).
  vm_compute; reflexivity.
Defined.

(** C7: on an empty target directory the synthesizer returns, the directory
    then holds the six mesh files and nothing else, and running it any number
    of times in a row ends in the same world, file for file and byte for byte,
    as running it once. *)
Theorem mesh_generation_idempotent (d : Path) (w : World) (n : nat) :
  empty_dir (fs w) d = true →
  ∃ w1,
    Fesom2p6ModelRun._create_minimal_mesh_files d w = Ret tt w1
    ∧ run_times (S n) (Fesom2p6ModelRun._create_minimal_mesh_files d) w = Ret tt w1
    ∧ run_times (S n) (FesomDevModelRun._create_minimal_mesh_files d) w = Ret tt w1
    ∧ ∀ name, fs w1 !! joinpath d name = File <$> mesh_text name.
Proof.
  intros Hempty. pose proof (empty_dir_target_ok _ _ Hempty) as Hok.
  exists (set_fs w (with_mesh d (fs w))).
  split_and!.
  - by apply create_minimal_mesh_files_run.
  - by apply run_times_mesh.
  - by apply run_times_mesh.
  - intros name. simpl fs. rewrite with_mesh_lookup.
    destruct (mesh_text name); [done|].
    by apply empty_dir_lookup.
Qed.

Lemma mesh_generation_idempotent_witness :
  empty_dir (fs Samples.fresh_world) Samples.stub_dir = true
  ∧ ∃ w1,
      Fesom2p6ModelRun._create_minimal_mesh_files Samples.stub_dir Samples.fresh_world
      = Ret tt w1
      ∧ run_times 2 (Fesom2p6ModelRun._create_minimal_mesh_files Samples.stub_dir)
          Samples.fresh_world = Ret tt w1
      ∧ run_times 2 (FesomDevModelRun._create_minimal_mesh_files Samples.stub_dir)
          Samples.fresh_world = Ret tt w1
      ∧ ∀ name, fs w1 !! joinpath Samples.stub_dir name = File <$> mesh_text name.
Proof.
  split; [vm_compute; reflexivity|].
  apply (mesh_generation_idempotent Samples.stub_dir Samples.fresh_world 1).
  vm_compute; reflexivity.
Defined.

(** C8: the synthesizers of the two variants are extensionally equal: from
    the same world and target directory they end in the same outcome, hence
    write the same files with the same contents (and fail alike). *)
Theorem mesh_synthesizers_agree (d : Path) (w : World) :
  Fesom2p6ModelRun._create_minimal_mesh_files d w
  = FesomDevModelRun._create_minimal_mesh_files d w.
Proof.
  unfold Fesom2p6ModelRun._create_minimal_mesh_files,
    FesomDevModelRun._create_minimal_mesh_files.
  repeat (f_equal; try reflexivity).
Qed.

(** C10: [elem2d.out] as either variant writes it holds the header "5" and
    ten lines, the two lines of each of the records 1 to 5. For every one of
    these indices i the wrap-around [(i mod 8) + 1] is [i + 1]: the first
    line of record i is (i, i, i+1) and its second line (i+1, i+2, i+1), the
    third node repeating the first. *)
Theorem elem2d_never_wraps (d : Path) (w : World) :
  mesh_target_ok (fs w) d = true →
  ∃ w' text,
    Fesom2p6ModelRun._create_minimal_mesh_files d w = Ret tt w'
    ∧ FesomDevModelRun._create_minimal_mesh_files d w = Ret tt w'
    ∧ fs w' !! joinpath d "elem2d.out" = Some (File text)
    ∧ lines text !! 0%nat = Some "5"
    ∧ length (lines text) = 11%nat
    ∧ ∀ i, 1 ≤ i ≤ 5 →
        i mod 8 + 1 = i + 1
        ∧ lines text !! Z.to_nat (2 * i - 1)
          = Some (format_d 8 i +:+ " " +:+ format_d 8 i +:+ " " +:+ format_d 8 (i + 1))
        ∧ lines text !! Z.to_nat (2 * i)
          = Some (format_d 8 (i + 1) +:+ " " +:+ format_d 8 (i + 2) +:+ " "
                  +:+ format_d 8 (i + 1))
        ∧ fields <$> lines text !! Z.to_nat (2 * i)
          = Some [str_int (i + 1); str_int (i + 2); str_int (i + 1)].
Proof.
  intros Hok.
  exists (set_fs w (with_mesh d (fs w))), elem2d_text.
  pose proof (create_minimal_mesh_files_run d w Hok) as Hrun.
  split; [exact Hrun|]. split; [exact Hrun|]. split.
  { simpl fs. by rewrite with_mesh_lookup. }
  split; [vm_compute; reflexivity|]. split; [vm_compute; reflexivity|].
  intros i Hi.
  assert (i = 1 ∨ i = 2 ∨ i = 3 ∨ i = 4 ∨ i = 5) as Hc by lia.
  repeat destruct Hc as [->|Hc]; try subst i; repeat split; vm_compute; reflexivity.
Qed.

Lemma elem2d_never_wraps_witness :
  mesh_target_ok (fs Samples.fresh_world) Samples.stub_dir = true
  ∧ ∃ w' text,
      Fesom2p6ModelRun._create_minimal_mesh_files Samples.stub_dir Samples.fresh_world
      = Ret tt w'
      ∧ fs w' !! joinpath Samples.stub_dir "elem2d.out" = Some (File text)
      ∧ lines text !! 6%nat = Some "       4        5        4".
Proof.
  assert (mesh_target_ok (fs Samples.fresh_world) Samples.stub_dir = true) as H
    by (vm_compute; reflexivity).
  split; [exact H|].
  destruct (elem2d_never_wraps Samples.stub_dir Samples.fresh_world H)
    as (w' & text & Hrun & _ & Hfile & _ & _ & Hall).
  assert (1 ≤ 3 ≤ 5) as H3 by lia.
  destruct (Hall 3 H3) as (_ & _ & Hsecond & _).
  exists w', text. split; [exact Hrun|]. split; [exact Hfile|exact Hsecond].
Defined.

(** C1 (where the code departs from it): record 10 of [nod3d.out] carries
    longitude 300.0 and latitude 74.0, coordinates of no record of
    [nod2d.out], while record ((10-1) mod 10)+1 = 10 of [nod2d.out] carries
    301.0 and 74.5; the depth of record 10 is -100. *)
Theorem nod3d_record_10_off_cycle :
  cycled 10 = 10
  ∧ fields (Fesom2p6ModelRun.nod3d_record 10)
    = ["10"; "300.0000000"; "74.0000000"; "-100.0000000"; "0"]
  ∧ fields (FesomDevModelRun.nod3d_record 10)
    = ["10"; "300.0000000"; "74.0000000"; "-100.0000000"; "0"]
  ∧ fields (Fesom2p6ModelRun.nod2d_record (cycled 10))
    = ["10"; "301.0000000"; "74.5000000"; "0"]
  ∧ fields (FesomDevModelRun.nod2d_record (cycled 10))
    = ["10"; "301.0000000"; "74.5000000"; "0"]
  ∧ forallb (fun j => bool_decide (lon_lat (Fesom2p6ModelRun.nod2d_record j)
                                    ≠ lon_lat (Fesom2p6ModelRun.nod3d_record 10)))
       (range 1 11) = true.
Proof. repeat split; vm_compute; reflexivity. Qed.

(** ** Properties of the lookups and of the clone cache *)

(** C9 as stated fails: when the [fixtures] directory cannot be searched,
    [configs] of either variant raises the [PermissionError] of
    [Path.exists], although the config files are there. *)
Lemma configs_raises_when_unsearchable :
  Fesom2p6ModelRun.configs MoreSamples.package_dir MoreSamples.locked_fixtures
    MoreSamples.package_world
  = Raise (PermissionError
             "/site-packages/pycmor_test_data_fesom/fixtures/config_cmip6_fesom_2p6.yaml")
      MoreSamples.package_world
  ∧ FesomDevModelRun.configs MoreSamples.package_dir MoreSamples.locked_fixtures
      MoreSamples.package_world
    = Raise (PermissionError
               "/site-packages/pycmor_test_data_fesom/fixtures/config_cmip6_fesom_dev.yaml")
        MoreSamples.package_world
  ∧ found (fs MoreSamples.package_world)
      (joinpath MoreSamples.fixtures_dir "config_cmip6_fesom_2p6.yaml") = true.
Proof. repeat split; vm_compute; reflexivity. Qed.

(** C9, amended: in every world where the [fixtures] directory and the
    directories above it can be searched, the [configs] property of each
    variant returns, leaving the world as it was; the mapping has a key
    "cmip6" exactly when the cmip6 fixture config file exists and a key
    "cmip7" exactly when the cmip7 one does, each mapped to the path of its
    file, and no other key; it is empty when neither file exists. Where one
    of those directories cannot be searched, [configs] raises the
    [PermissionError] of the first lookup. *)
Theorem configs_when_searchable (here : Path) (unsearchable : gset Path) (w : World) :
  let fixture name := joinpath (joinpath here "fixtures") name in
  (can_search unsearchable (fs w) (joinpath here "fixtures") = true →
   (∃ m, Fesom2p6ModelRun.configs here unsearchable w = Ret m w
         ∧ lists_existing (fs w) (fixture "config_cmip6_fesom_2p6.yaml")
             (fixture "config_cmip7_fesom_2p6.yaml") m)
   ∧ (∃ m, FesomDevModelRun.configs here unsearchable w = Ret m w
           ∧ lists_existing (fs w) (fixture "config_cmip6_fesom_dev.yaml")
               (fixture "config_cmip7_fesom_dev.yaml") m))
  ∧ (can_search unsearchable (fs w) (joinpath here "fixtures") = false →
     Fesom2p6ModelRun.configs here unsearchable w
     = Raise (PermissionError (str_path (fixture "config_cmip6_fesom_2p6.yaml"))) w
     ∧ FesomDevModelRun.configs here unsearchable w
       = Raise (PermissionError (str_path (fixture "config_cmip6_fesom_dev.yaml"))) w).
Proof.
  intros fixture.
  assert (∀ name, denied unsearchable (fs w) (fixture name)
                  = negb (can_search unsearchable (fs w) (joinpath here "fixtures")))
    as Hden by (intros name; unfold can_search; by rewrite negb_involutive).
  assert (∀ name, can_search unsearchable (fs w) (joinpath here "fixtures") = true →
            path_exists_in unsearchable (fixture name) w
            = Ret (found (fs w) (fixture name)) w) as Hfound.
  { intros name Hcan. unfold path_exists_in. by rewrite Hden, Hcan. }
  assert (∀ name, can_search unsearchable (fs w) (joinpath here "fixtures") = false →
            path_exists_in unsearchable (fixture name) w
            = Raise (PermissionError (str_path (fixture name))) w) as Hraise.
  { intros name Hcan. unfold path_exists_in. by rewrite Hden, Hcan. }
  split.
  - intros Hcan. split.
    + unfold Fesom2p6ModelRun.configs.
      fold (fixture "config_cmip6_fesom_2p6.yaml") (fixture "config_cmip7_fesom_2p6.yaml").
      erewrite bind_ret by (by apply Hfound).
      erewrite bind_ret by (by apply Hfound).
      eexists; split; [reflexivity|].
      unfold lists_existing.
      do 2 destruct (found _ _); split_and!; intros; by simplify_map_eq.
    + unfold FesomDevModelRun.configs.
      fold (fixture "config_cmip6_fesom_dev.yaml") (fixture "config_cmip7_fesom_dev.yaml").
      erewrite bind_ret by (by apply Hfound).
      erewrite bind_ret by (by apply Hfound).
      eexists; split; [reflexivity|].
      unfold lists_existing.
      do 2 destruct (found _ _); split_and!; intros; by simplify_map_eq.
  - intros Hcan. split.
    + unfold Fesom2p6ModelRun.configs.
      fold (fixture "config_cmip6_fesom_2p6.yaml").
      by erewrite bind_raise by (by apply Hraise).
    + unfold FesomDevModelRun.configs.
      fold (fixture "config_cmip6_fesom_dev.yaml").
      by erewrite bind_raise by (by apply Hraise).
Qed.

Lemma configs_when_searchable_witness :
  can_search ∅ (fs MoreSamples.package_world) MoreSamples.fixtures_dir = true
  ∧ ∃ m, Fesom2p6ModelRun.configs MoreSamples.package_dir ∅ MoreSamples.package_world
         = Ret m MoreSamples.package_world
         ∧ m !! "cmip6"
           = Some (joinpath MoreSamples.fixtures_dir "config_cmip6_fesom_2p6.yaml")
         ∧ m !! "cmip7" = None.
Proof.
  assert (can_search ∅ (fs MoreSamples.package_world) MoreSamples.fixtures_dir = true)
    as H by (vm_compute; reflexivity).
  split; [exact H|].
  destruct (configs_when_searchable MoreSamples.package_dir ∅ MoreSamples.package_world)
    as [Hret _].
  destruct (Hret H) as [(m & Hrun & H6 & H7 & _) _].
  exists m. split; [exact Hrun|]. split.
  - rewrite H6. vm_compute. reflexivity.
  - rewrite H7. vm_compute. reflexivity.
Defined.

(** C5: [fetch_real_datadir] of the 2.6 variant returns the directory
    [fesom_2p6_pimesh] inside the directory the fetcher extracted to whenever
    that inner directory exists, and the extraction directory itself
    otherwise; the world is as the fetcher left it, and an error of the
    fetcher is passed on unchanged. *)
Theorem fetch_real_datadir_unwraps
    (here : Path) (fetch_and_extract : string → Path → M Path) (w : World) :
  Fesom2p6ModelRun.fetch_real_datadir here fetch_and_extract w
  = match fetch_and_extract "fesom_2p6_pimesh.tar" (joinpath here "registry.yaml") w with
    | Ret data_dir w' =>
        let inner_dir := joinpath data_dir "fesom_2p6_pimesh" in
        Ret (if found (fs w') inner_dir then inner_dir else data_dir) w'
    | Raise e w' => Raise e w'
    end.
Proof.
  unfold Fesom2p6ModelRun.fetch_real_datadir, Fesom2p6ModelRun.registry_path.
  unfold mbind, M_bind, bind, path_exists, found.
  destruct (fetch_and_extract _ _ w) as [data_dir w'|e w']; [|done].
  by destruct (bool_decide _).
Qed.

(** C3: when the cache directory holds a completed clone ([pi_mesh_git]
    exists and holds a [.git] folder), [fetch_real_meshdir] returns the path
    of that clone whatever the command runner would do, starts no external
    command and leaves the file system as it was; so do any number of calls
    in a row, each returning the same path. *)
Theorem fetch_real_meshdir_cached
    (cache_dir : Path) (run_process : list string → Z → FS → proc_result * FS)
    (w : World) (n : nat) :
  is_cached cache_dir (fs w) = true →
  (∃ w', FesomDevModelRun.fetch_real_meshdir cache_dir run_process w
         = Ret (joinpath cache_dir "pi_mesh_git") w'
         ∧ fs w' = fs w ∧ calls w' = calls w)
  ∧ (∃ w', call_times n (FesomDevModelRun.fetch_real_meshdir cache_dir run_process) w
           = Ret (replicate n (joinpath cache_dir "pi_mesh_git")) w'
           ∧ fs w' = fs w ∧ calls w' = calls w).
Proof.
  intros Hc. split.
  - eexists. split; [by apply fetch_real_meshdir_hit|done].
  - revert w Hc. induction n as [|n IH]; intros w Hc.
    + by exists w.
    + pose proof (fetch_real_meshdir_hit cache_dir run_process w Hc) as Hhit.
      match type of Hhit with _ = Ret _ ?w1 =>
        destruct (IH w1 Hc) as (w2 & Hrest & Hfs & Hcalls) end.
      exists w2. split_and!; [|done..].
      eapply call_times_cons; [exact Hhit|exact Hrest].
Qed.

Lemma fetch_real_meshdir_cached_witness :
  is_cached Samples.cache_dir (fs Samples.cached_world) = true
  ∧ ∃ w', call_times 2
            (FesomDevModelRun.fetch_real_meshdir Samples.cache_dir Samples.failing_git)
            Samples.cached_world
          = Ret [mesh_cache Samples.cache_dir; mesh_cache Samples.cache_dir] w'
          ∧ fs w' = fs Samples.cached_world ∧ calls w' = [].
Proof.
  split; [vm_compute; reflexivity|].
  apply (fetch_real_meshdir_cached Samples.cache_dir Samples.failing_git
           Samples.cached_world 2).
  vm_compute; reflexivity.
Defined.

(** C4: without a completed clone in the cache, [fetch_real_meshdir] ends as
    follows. A clone exiting non-zero raises a [RuntimeError] whose message
    contains the captured stderr and stdout. A timeout of the probe or of the
    clone raises a [RuntimeError] whose message contains the timeout value,
    10 or 300. A missing [git] binary, at the probe or at the clone, raises a
    [RuntimeError] with a message of its own, which names [git]. The call
    returns only when both the probe and the clone exited with 0. *)
Theorem clone_failures_raise
    (cache_dir : Path) (run_process : list string → Z → FS → proc_result * FS)
    (w : World) :
  is_cached cache_dir (fs w) = false →
  let fetch := FesomDevModelRun.fetch_real_meshdir cache_dir run_process w in
  let probe := run_process probe_args 10 (fs w) in
  let clone fs1 := run_process (clone_args cache_dir) 300 fs1 in
  (∀ out1 err1 fs1 fs1c rc out err fs2,
     probe = (Completed 0 out1 err1, fs1) → cleared cache_dir fs1 = Some fs1c →
     clone fs1c = (Completed rc out err, fs2) → rc ≠ 0 →
     ∃ msg w', fetch = Raise (RuntimeError msg) w'
               ∧ contains msg err ∧ contains msg out)
  ∧ (∀ fs1, probe = (TimedOut, fs1) →
       ∃ msg w', fetch = Raise (RuntimeError msg) w' ∧ contains msg (str_int 10))
  ∧ (∀ out1 err1 fs1 fs1c fs2,
       probe = (Completed 0 out1 err1, fs1) → cleared cache_dir fs1 = Some fs1c →
       clone fs1c = (TimedOut, fs2) →
       ∃ msg w', fetch = Raise (RuntimeError msg) w' ∧ contains msg (str_int 300))
  ∧ (∀ fs1, probe = (CommandNotFound, fs1) →
       ∃ w', fetch = Raise (RuntimeError git_missing_message) w')
  ∧ (∀ out1 err1 fs1 fs1c fs2,
       probe = (Completed 0 out1 err1, fs1) → cleared cache_dir fs1 = Some fs1c →
       clone fs1c = (CommandNotFound, fs2) →
       ∃ w', fetch = Raise (RuntimeError git_missing_message) w')
  ∧ (contains git_missing_message "git"
     ∧ git_missing_message ≠ lfs_missing_message
     ∧ (∀ t, git_missing_message ≠ timeout_message t)
     ∧ (∀ out err, git_missing_message ≠ clone_failed_message out err))
  ∧ (∀ p w', fetch = Ret p w' →
       p = joinpath cache_dir "pi_mesh_git"
       ∧ ∃ out1 err1 fs1 fs1c out err,
           probe = (Completed 0 out1 err1, fs1) ∧ cleared cache_dir fs1 = Some fs1c
           ∧ clone fs1c = (Completed 0 out err, fs w')).
Proof.
  intros Hmiss fetch probe clone.
  pose proof (fetch_real_meshdir_miss cache_dir run_process w Hmiss) as Hrun.
  fold fetch probe in Hrun. simpl in Hrun.
  split_and!.
  - intros out1 err1 fs1 fs1c rc out err fs2 Hp Hc Hcl Hrc.
    rewrite Hp in Hrun. simpl in Hrun. rewrite Hc in Hrun.
    unfold clone in Hcl. rewrite Hcl in Hrun.
    rewrite bool_decide_eq_true_2 in Hrun by done.
    eexists _, _. split; [exact Hrun|].
    split; [apply clone_failed_message_err|apply clone_failed_message_out].
  - intros fs1 Hp. rewrite Hp in Hrun.
    eexists _, _. split; [exact Hrun|apply timeout_message_value].
  - intros out1 err1 fs1 fs1c fs2 Hp Hc Hcl.
    rewrite Hp in Hrun. simpl in Hrun. rewrite Hc in Hrun.
    unfold clone in Hcl. rewrite Hcl in Hrun.
    eexists _, _. split; [exact Hrun|apply timeout_message_value].
  - intros fs1 Hp. rewrite Hp in Hrun. eexists. exact Hrun.
  - intros out1 err1 fs1 fs1c fs2 Hp Hc Hcl.
    rewrite Hp in Hrun. simpl in Hrun. rewrite Hc in Hrun.
    unfold clone in Hcl. rewrite Hcl in Hrun.
    eexists. exact Hrun.
  - by exists "", " command not found. Please install git.".
  - discriminate.
  - intros t. discriminate.
  - intros out err. discriminate.
  - intros p w' Hret. rewrite Hret in Hrun.
    destruct probe as [[rc1 out1 err1| |] fs1]; [|done..].
    destruct (bool_decide (rc1 ≠ 0)) eqn:Hrc1; [done|].
    apply bool_decide_eq_false_1 in Hrc1.
    assert (rc1 = 0) as -> by lia.
    destruct (cleared cache_dir fs1) as [fs1c|] eqn:Hc; [|done].
    destruct (run_process (clone_args cache_dir) 300 fs1c)
      as [[rc2 out err| |] fs2] eqn:Hcl; [|done..].
    destruct (bool_decide (rc2 ≠ 0)) eqn:Hrc2; [done|].
    apply bool_decide_eq_false_1 in Hrc2.
    assert (rc2 = 0) as -> by lia.
    injection Hrun as -> ->. split; [done|].
    exists out1, err1, fs1, fs1c, out, err. split_and!; [done..|].
    unfold clone. by rewrite Hcl.
Qed.

Lemma clone_failures_raise_witness :
  is_cached Samples.cache_dir (fs Samples.uncached_world) = false
  ∧ ∃ msg w',
      FesomDevModelRun.fetch_real_meshdir Samples.cache_dir Samples.failing_git
        Samples.uncached_world = Raise (RuntimeError msg) w'
      ∧ contains msg "fatal: unable to access the remote"
      ∧ contains msg "Cloning into pi_mesh_git...".
Proof.
  assert (is_cached Samples.cache_dir (fs Samples.uncached_world) = false) as Hmiss
    by (vm_compute; reflexivity).
  split; [exact Hmiss|].
  destruct (clone_failures_raise Samples.cache_dir Samples.failing_git
              Samples.uncached_world Hmiss) as (Hclone & _).
  apply (Hclone "git-lfs/3.4.0" "" (fs Samples.uncached_world)
           (fs Samples.uncached_world) 128 _ _ (fs Samples.uncached_world)).
  - reflexivity.
  - vm_compute; reflexivity.
  - reflexivity.
  - lia.
Defined.

(** ** Properties of the stub directories *)

(** C2 as stated fails: with a manifest interpreter that writes one data file,
    [generate_stub_datadir] of the dev variant returns the stub root with none
    of the six mesh files in it. *)
Lemma dev_stub_datadir_without_mesh :
  ∃ w',
    FesomDevModelRun.generate_stub_datadir Samples.manifest Samples.one_file_interpreter
      Samples.stub_dir Samples.fresh_world = Ret Samples.stub_dir w'
    ∧ fs w' !! joinpath Samples.stub_dir "temp.fesom.1850.nc" = Some (File "CDF")
    ∧ Forall (fun name => fs w' !! joinpath Samples.stub_dir name = None) mesh_names.
Proof.
  eexists. split; [vm_compute; reflexivity|].
  split; [vm_compute; reflexivity|].
  repeat constructor; vm_compute; reflexivity.
Qed.

(** C2, amended: [generate_stub_datadir] of the dev variant delegates to the
    manifest interpreter and returns the target directory, leaving the file
    system as the interpreter left it. It is [generate_stub_meshdir] of the
    dev variant that, after delegating to the interpreter, writes the six
    mesh files directly into the stub root, whereas [generate_stub_datadir]
    of the first variant writes them under [input/fesom/mesh/pi] of the
    directory the interpreter returned. *)
Theorem stub_mesh_placement
    (here manifest : Path) (generate_stub_files : Path → Path → M Path)
    (stub_dir : Path) (w : World) :
  FesomDevModelRun.generate_stub_datadir manifest generate_stub_files stub_dir w
  = match generate_stub_files manifest stub_dir w with
    | Ret _ w1 => Ret stub_dir w1
    | Raise e w1 => Raise e w1
    end
  ∧ (∀ made w1,
       generate_stub_files manifest stub_dir w = Ret made w1 →
       mesh_target_ok (fs w1) stub_dir = true →
       ∃ w2, FesomDevModelRun.generate_stub_meshdir manifest generate_stub_files stub_dir w
             = Ret stub_dir w2
             ∧ fs w2 = with_mesh stub_dir (fs w1)
             ∧ holds_mesh (fs w2) stub_dir)
  ∧ (∀ made w1,
       generate_stub_files (joinpath here "fesom_2p6_stub_manifest.yaml") stub_dir w
       = Ret made w1 →
       stub_target_ok (fs w1) made = true →
       let mesh_dir :=
         joinpath (joinpath (joinpath (joinpath made "input") "fesom") "mesh") "pi" in
       ∃ w2, Fesom2p6ModelRun.generate_stub_datadir here generate_stub_files stub_dir w
             = Ret made w2
             ∧ fs w2 = with_mesh mesh_dir (make_dirs mesh_dir (fs w1))
             ∧ holds_mesh (fs w2) mesh_dir).
Proof.
  split_and!.
  - unfold FesomDevModelRun.generate_stub_datadir, mbind, M_bind, bind.
    by destruct (generate_stub_files manifest stub_dir w).
  - intros made w1 Hgen Hok.
    exists (set_fs w1 (with_mesh stub_dir (fs w1))).
    split_and!; [|done|apply with_mesh_holds].
    unfold FesomDevModelRun.generate_stub_meshdir.
    erewrite bind_ret by exact Hgen.
    erewrite bind_ret by (by apply (create_minimal_mesh_files_run stub_dir w1)).
    done.
  - intros made w1 Hgen Hok mesh_dir.
    exists (set_fs w1 (with_mesh mesh_dir (make_dirs mesh_dir (fs w1)))).
    split_and!; [|done|apply with_mesh_holds].
    unfold Fesom2p6ModelRun.generate_stub_datadir, Fesom2p6ModelRun.stub_manifest_path.
    erewrite bind_ret by exact Hgen.
    fold (mesh_subdir made). fold (mesh_subdir made) in mesh_dir.
    erewrite bind_ret; cycle 1.
    { apply mkdir_parents_run. unfold stub_target_ok in Hok.
      by apply andb_true_iff in Hok as [? _]. }
    erewrite bind_ret; cycle 1.
    { apply create_minimal_mesh_files_run. simpl fs. by apply stub_target_ok_mesh. }
    done.
Qed.

Lemma stub_mesh_placement_witness :
  mesh_target_ok (fs Samples.fresh_world) Samples.stub_dir = true
  ∧ stub_target_ok (fs Samples.fresh_world) Samples.stub_dir = true
  ∧ (∃ w2, FesomDevModelRun.generate_stub_meshdir Samples.manifest
             (fun _ d => mret d) Samples.stub_dir Samples.fresh_world
           = Ret Samples.stub_dir w2
           ∧ fs w2 = with_mesh Samples.stub_dir (fs Samples.fresh_world)
           ∧ holds_mesh (fs w2) Samples.stub_dir)
  ∧ (∃ w2, Fesom2p6ModelRun.generate_stub_datadir ["pkg"]
             (fun _ d => mret d) Samples.stub_dir Samples.fresh_world
           = Ret Samples.stub_dir w2
           ∧ fs w2 = with_mesh (mesh_subdir Samples.stub_dir)
                       (make_dirs (mesh_subdir Samples.stub_dir) (fs Samples.fresh_world))
           ∧ holds_mesh (fs w2) (mesh_subdir Samples.stub_dir)).
Proof.
  assert (mesh_target_ok (fs Samples.fresh_world) Samples.stub_dir = true) as H1
    by (vm_compute; reflexivity).
  assert (stub_target_ok (fs Samples.fresh_world) Samples.stub_dir = true) as H2
    by (vm_compute; reflexivity).
  destruct (stub_mesh_placement ["pkg"] Samples.manifest (fun _ d => mret d)
              Samples.stub_dir Samples.fresh_world) as (_ & Hdev & Hfirst).
  split; [exact H1|]. split; [exact H2|]. split.
  - exact (Hdev Samples.stub_dir Samples.fresh_world eq_refl H1).
  - exact (Hfirst Samples.stub_dir Samples.fresh_world eq_refl H2).
Defined.

(** ** How the mesh synthesizer ends *)

Section MeshOutcome.

Lemma with_open_w_blocked p (body : Path → M unit) w :
  can_write (fs w) p = false →
  ∃ e, open_error e ∧ with_open_w p body w = Raise e w.
Proof.
  assert (∀ e, open_error e → ∃ e', open_error e' ∧ Raise e w = Raise (A:=unit) e' w)
    as Hraise by (intros e He; by exists e).
  unfold can_write, with_open_w. destruct p as [|n up]; [intros _; by apply Hraise|].
  destruct (node_at (fs w) up) as [[|c]|]; [|intros _; by apply Hraise..].
  destruct (fs w !! (n :: up)) as [[|c]|]; [intros _; by apply Hraise|done..].
Qed.

Lemma can_write_insert_other fs d name name' t :
  name ≠ name' →
  can_write (<[joinpath d name' := File t]> fs) (joinpath d name)
  = can_write fs (joinpath d name).
Proof.
  intros Hne. unfold can_write, joinpath.
  pose proof (node_at_insert_child fs d name' (File t)) as Hd.
  unfold joinpath in Hd. rewrite Hd.
  rewrite lookup_insert_ne by congruence. done.
Qed.

Lemma off_mesh_insert (d q : Path) (name : string) (v : node) (fs : FS) :
  off_mesh d q → name ∈ mesh_names →
  <[joinpath d name := v]> fs !! q = fs !! q.
Proof. intros Hoff Hin. apply lookup_insert_ne. intros <-. by apply (Hoff name). Qed.

(** One [with open ... as f] block of the synthesizer: it writes its file or
    raises in the world it started from. *)
Lemma with_open_w_step p s (body : Path → M unit) w :
  appends p s (body p) →
  (can_write (fs w) p = true
   ∧ with_open_w p body w = Ret tt (set_fs w (<[p := File s]> (fs w))))
  ∨ (can_write (fs w) p = false
     ∧ ∃ e, open_error e ∧ with_open_w p body w = Raise e w).
Proof.
  intros Happ. destruct (can_write (fs w) p) eqn:Hcw.
  - left. split; [done|]. by apply with_open_w_appends.
  - right. split; [done|]. by apply with_open_w_blocked.
Qed.

Ltac write_chain :=
  repeat first
    [ eapply appends_for_each; intros ?
    | apply appends_write
    | eapply appends_bind ].

(** The next [with open] block of the goal either writes or raises. *)
Ltac open_next :=
  match goal with
  | |- context [(with_open_w ?p ?body ≫= ?k) ?w] =>
      let Hcw := fresh "Hcw" in
      let Hrun := fresh "Hrun" in
      let e := fresh "e" in
      let He := fresh "He" in
      destruct (with_open_w_step p _ body w ltac:(write_chain))
        as [[Hcw Hrun]|[Hcw (e & He & Hrun)]];
      [ erewrite (bind_ret _ _ w) by exact Hrun
      | erewrite (bind_raise _ _ w) by exact Hrun ]
  end.

(** The goal of [create_minimal_mesh_files_outcome] when a block has raised. *)
Ltac blocked_here :=
  match goal with
  | He : open_error ?e |- _ =>
      eexists; split;
      [|right; split; [done|]; exists e; split; [exact He|reflexivity]];
      intros q Hoff; cbn [fs set_fs];
      rewrite ?off_mesh_insert by first [exact Hoff | repeat constructor];
      reflexivity
  end.

(** The synthesizer returns on a writable target and raises otherwise; either
    way the world it ends in differs from the one it started from at most in
    the six mesh files. *)
Lemma create_minimal_mesh_files_outcome d w :
  ∃ fs',
    (∀ q, off_mesh d q → fs' !! q = fs w !! q)
    ∧ ((mesh_target_ok (fs w) d = true
        ∧ Fesom2p6ModelRun._create_minimal_mesh_files d w = Ret tt (set_fs w fs'))
       ∨ (mesh_target_ok (fs w) d = false
          ∧ ∃ e, open_error e
                 ∧ Fesom2p6ModelRun._create_minimal_mesh_files d w
                   = Raise e (set_fs w fs'))).
Proof.
  destruct w as [f l c]. simpl fs.
  destruct (mesh_target_ok f d) eqn:Hok.
  { exists (with_mesh d f). split.
    - intros q Hoff. unfold with_mesh.
      rewrite !off_mesh_insert by first [exact Hoff | repeat constructor]. done.
    - left. split; [done|]. by apply (create_minimal_mesh_files_run d (mkWorld f l c)). }
  unfold Fesom2p6ModelRun._create_minimal_mesh_files.
  do 5 (open_next; [|blocked_here]).
  match goal with
  | |- context [with_open_w ?p ?body ?w] =>
      destruct (with_open_w_step p depth_text body w
                  ltac:(unfold depth_text; write_chain))
        as [[Hcw4 Hrun4]|[Hcw4 (e & He & Hrun4)]]; rewrite Hrun4
  end; [|blocked_here].
  cbn [fs set_fs] in Hcw, Hcw0, Hcw1, Hcw2, Hcw3, Hcw4.
  repeat rewrite can_write_insert_other in Hcw0 by discriminate.
  repeat rewrite can_write_insert_other in Hcw1 by discriminate.
  repeat rewrite can_write_insert_other in Hcw2 by discriminate.
  repeat rewrite can_write_insert_other in Hcw3 by discriminate.
  repeat rewrite can_write_insert_other in Hcw4 by discriminate.
  unfold mesh_target_ok, mesh_names in Hok. cbn [forallb] in Hok.
  by rewrite Hcw, Hcw0, Hcw1, Hcw2, Hcw3, Hcw4 in Hok.
Qed.

(** On a writable target both synthesizers return in one and the same world,
    where each of the six files holds its text. *)
Lemma mesh_files_written d w :
  mesh_target_ok (fs w) d = true →
  ∃ w', Fesom2p6ModelRun._create_minimal_mesh_files d w = Ret tt w'
        ∧ FesomDevModelRun._create_minimal_mesh_files d w = Ret tt w'
        ∧ ∀ name text (P : string → Prop),
            mesh_text name = Some text → P text → written (fs w') d name P.
Proof.
  intros Hok. exists (set_fs w (with_mesh d (fs w))).
  pose proof (create_minimal_mesh_files_run d w Hok) as Hrun.
  split; [exact Hrun|]. split; [exact Hrun|].
  intros name text P Htext HP. exists text. split; [|done].
  cbn [fs set_fs]. by rewrite with_mesh_lookup, Htext.
Qed.

End MeshOutcome.

(** ** How making the directories ends *)

Section DirectoriesOutcome.

#[local] Arguments node_at : simpl never.
#[local] Arguments str_path : simpl never.

Lemma dirs_clear_existing fs p : node_at fs p = Some Dir → dirs_clear fs p = true.
Proof. destruct p as [|x up]; [done|]. simpl. by intros ->. Qed.

(** When a plain file is in the way, [mkdir] raises and makes nothing. *)
Lemma mkdir_parents_blocked p w :
  dirs_clear (fs w) p = false →
  ∃ e, mkdir_error e ∧ mkdir_parents p w = Raise e w.
Proof.
  induction p as [|x up IH]; intros Hclear; [done|].
  simpl in Hclear. simpl. unfold try_except, os_mkdir.
  destruct (node_at (fs w) (x :: up)) as [[|c]|] eqn:Hp; [done| |].
  - unfold unless_is_dir, mbind, M_bind, bind, is_dir. rewrite Hp.
    by eexists (FileExistsError _).
  - change (parent (x :: up)) with up.
    destruct (node_at (fs w) up) as [[|c]|] eqn:Hup.
    + by rewrite dirs_clear_existing in Hclear.
    + unfold unless_is_dir, mbind, M_bind, bind, is_dir. rewrite Hp.
      by eexists (NotADirectoryError _).
    + destruct (IH Hclear) as (e & He & Hraise).
      unfold mbind, M_bind, bind. rewrite Hraise. by exists e.
Qed.

Lemma make_dirs_keeps p fs (q : Path) (v : node) :
  fs !! q = Some v → make_dirs p fs !! q = Some v.
Proof.
  intros Hq. induction p as [|x up IH]; [done|]. simpl.
  destruct (node_at fs (x :: up)) eqn:Hp; [done|].
  rewrite lookup_insert_ne; [done|].
  intros <-. unfold node_at in Hp. congruence.
Qed.

Lemma mesh_target_ok_make_dirs fs m :
  dirs_clear fs m = true →
  mesh_target_ok (make_dirs m fs) m
  = forallb (fun name => match fs !! joinpath m name with
                         | Some Dir => false
                         | _ => true
                         end) mesh_names.
Proof.
  intros Hclear. unfold mesh_target_ok, mesh_names. cbn [forallb].
  unfold can_write, joinpath.
  rewrite make_dirs_is_dir by done.
  by rewrite !make_dirs_lookup_other by apply not_suffix_cons.
Qed.

Lemma nothing_below_lookup fs d (q : Path) :
  nothing_below fs d = true → d `suffix_of` q → fs !! q = None.
Proof.
  unfold nothing_below. rewrite forallb_forall. intros Hall Hsuf.
  destruct (fs !! q) as [v|] eqn:Hq; [|done].
  assert (q ∈ (map_to_list fs).*1) as Hin.
  { apply list_elem_of_fmap. exists (q, v). split; [done|].
    by apply elem_of_map_to_list. }
  apply list_elem_of_In, Hall in Hin.
  by rewrite bool_decide_eq_true_2 in Hin.
Qed.

End DirectoriesOutcome.

(** ** Listing a directory *)

Section Listing.

Lemma elem_of_entries fs d (q : Path) :
  q ∈ entries fs d ↔ (∃ name, q = joinpath d name) ∧ is_Some (fs !! q).
Proof.
  unfold entries. rewrite list_elem_of_filter, list_elem_of_fmap. split.
  - intros [[Hpar Hne] ([q' v] & -> & Hin%elem_of_map_to_list)]. simpl in *.
    split; [|by exists v].
    destruct q' as [|name up]; [done|]. exists name. simpl in Hpar. by subst.
  - intros [[name ->] [v Hv]]. split; [done|].
    exists (joinpath d name, v). split; [done|]. by apply elem_of_map_to_list.
Qed.

Lemma NoDup_entries fs d : NoDup (entries fs d).
Proof. unfold entries. apply NoDup_filter, NoDup_fst_map_to_list. Qed.

Lemma elem_of_entries_with fs d keep (q : Path) :
  q ∈ filter (fun q => keep (path_name q) = true) (entries fs d)
  ↔ entry_with fs d keep q.
Proof.
  rewrite list_elem_of_filter, elem_of_entries. unfold entry_with. split.
  - intros [Hkeep [[name ->] Hsome]]. split; [|done]. by exists name.
  - intros [[name [-> Hkeep]] Hsome]. split; [done|]. split; [by exists name|done].
Qed.

End Listing.

(** * Further properties *)

(** ** The layout of the mesh files *)

(** X1: in the files either variant writes, the header of [nod2d.out],
    [nod3d.out], [elem3d.out] and [aux3d.out] is the number of lines that
    follow it; in [elem2d.out] each of the records counted by the header
    takes two lines; [depth.out] has ten lines of one field and no header. *)
Theorem mesh_headers_count_records (d : Path) (w : World) :
  mesh_target_ok (fs w) d = true →
  ∃ w',
    Fesom2p6ModelRun._create_minimal_mesh_files d w = Ret tt w'
    ∧ FesomDevModelRun._create_minimal_mesh_files d w = Ret tt w'
    ∧ written (fs w') d "nod2d.out" (counted 1)
    ∧ written (fs w') d "elem2d.out" (counted 2)
    ∧ written (fs w') d "nod3d.out" (counted 1)
    ∧ written (fs w') d "elem3d.out" (counted 1)
    ∧ written (fs w') d "aux3d.out" (counted 1)
    ∧ written (fs w') d "depth.out"
        (fun text => length (lines text) = 10%nat
                     ∧ Forall (fun l => length (fields l) = 1%nat) (lines text)).
Proof.
  intros Hok. destruct (mesh_files_written d w Hok) as (w' & H26 & Hdev & Hfiles).
  exists w'. split; [exact H26|]. split; [exact Hdev|].
  split; [apply (Hfiles _ nod2d_text); [reflexivity|];
          exists 10%nat; eexists; split; vm_compute; reflexivity|].
  split; [apply (Hfiles _ elem2d_text); [reflexivity|];
          exists 5%nat; eexists; split; vm_compute; reflexivity|].
  split; [apply (Hfiles _ nod3d_text); [reflexivity|];
          exists 30%nat; eexists; split; vm_compute; reflexivity|].
  split; [apply (Hfiles _ elem3d_text); [reflexivity|];
          exists 10%nat; eexists; split; vm_compute; reflexivity|].
  split; [apply (Hfiles _ aux3d_text); [reflexivity|];
          exists 3%nat; eexists; split; vm_compute; reflexivity|].
  apply (Hfiles _ depth_text); [reflexivity|].
  split; [vm_compute; reflexivity|compute_done].
Qed.

Lemma mesh_headers_count_records_witness :
  mesh_target_ok (fs Samples.fresh_world) Samples.stub_dir = true
  ∧ ∃ w',
      Fesom2p6ModelRun._create_minimal_mesh_files Samples.stub_dir Samples.fresh_world
      = Ret tt w'
      ∧ written (fs w') Samples.stub_dir "nod2d.out" (counted 1)
      ∧ written (fs w') Samples.stub_dir "elem2d.out" (counted 2).
Proof.
  assert (mesh_target_ok (fs Samples.fresh_world) Samples.stub_dir = true) as H
    by (vm_compute; reflexivity).
  split; [exact H|].
  destruct (mesh_headers_count_records Samples.stub_dir Samples.fresh_world H)
    as (w' & Hrun & _ & Hnod & Helem & _).
  exists w'. split; [exact Hrun|]. split; [exact Hnod|exact Helem].
Defined.

(** X2: the records either variant writes are fixed-width: no index or
    coordinate overflows its field, so every record line of a file has the
    same length (48 in [nod2d.out], 26 in [elem2d.out], 63 in [nod3d.out], 35
    in [elem3d.out], 8 in [aux3d.out]). *)
Theorem mesh_records_fixed_width (d : Path) (w : World) :
  mesh_target_ok (fs w) d = true →
  ∃ w',
    Fesom2p6ModelRun._create_minimal_mesh_files d w = Ret tt w'
    ∧ FesomDevModelRun._create_minimal_mesh_files d w = Ret tt w'
    ∧ written (fs w') d "nod2d.out" (fixed_width 1 48)
    ∧ written (fs w') d "elem2d.out" (fixed_width 1 26)
    ∧ written (fs w') d "nod3d.out" (fixed_width 1 63)
    ∧ written (fs w') d "elem3d.out" (fixed_width 1 35)
    ∧ written (fs w') d "aux3d.out" (fixed_width 1 8).
Proof.
  intros Hok. destruct (mesh_files_written d w Hok) as (w' & H26 & Hdev & Hfiles).
  exists w'. split; [exact H26|]. split; [exact Hdev|].
  split; [apply (Hfiles _ nod2d_text); [reflexivity|unfold fixed_width; compute_done]|].
  split; [apply (Hfiles _ elem2d_text); [reflexivity|unfold fixed_width; compute_done]|].
  split; [apply (Hfiles _ nod3d_text); [reflexivity|unfold fixed_width; compute_done]|].
  split; [apply (Hfiles _ elem3d_text); [reflexivity|unfold fixed_width; compute_done]|].
  apply (Hfiles _ aux3d_text); [reflexivity|unfold fixed_width; compute_done].
Qed.

Lemma mesh_records_fixed_width_witness :
  mesh_target_ok (fs Samples.fresh_world) Samples.stub_dir = true
  ∧ ∃ w',
      Fesom2p6ModelRun._create_minimal_mesh_files Samples.stub_dir Samples.fresh_world
      = Ret tt w'
      ∧ written (fs w') Samples.stub_dir "nod3d.out" (fixed_width 1 63).
Proof.
  assert (mesh_target_ok (fs Samples.fresh_world) Samples.stub_dir = true) as H
    by (vm_compute; reflexivity).
  split; [exact H|].
  destruct (mesh_records_fixed_width Samples.stub_dir Samples.fresh_world H)
    as (w' & Hrun & _ & _ & _ & Hnod & _).
  exists w'. split; [exact Hrun|exact Hnod].
Defined.

(** X3: the connectivity either variant writes refers to nodes that exist:
    every index in [elem2d.out] is one of the nodes counted by the header of
    [nod2d.out], and every index in [elem3d.out] and [aux3d.out] one of the
    nodes counted by the header of [nod3d.out]. *)
Theorem mesh_connectivity_in_range (d : Path) (w : World) :
  mesh_target_ok (fs w) d = true →
  ∃ w' n2 n3,
    Fesom2p6ModelRun._create_minimal_mesh_files d w = Ret tt w'
    ∧ FesomDevModelRun._create_minimal_mesh_files d w = Ret tt w'
    ∧ written (fs w') d "nod2d.out" (fun text => head (lines text) = Some (str_int n2))
    ∧ written (fs w') d "nod3d.out" (fun text => head (lines text) = Some (str_int n3))
    ∧ written (fs w') d "elem2d.out" (refers_to_nodes n2)
    ∧ written (fs w') d "elem3d.out" (refers_to_nodes n3)
    ∧ written (fs w') d "aux3d.out" (refers_to_nodes n3).
Proof.
  intros Hok. destruct (mesh_files_written d w Hok) as (w' & H26 & Hdev & Hfiles).
  exists w', 10, 30. split; [exact H26|]. split; [exact Hdev|].
  split; [apply (Hfiles _ nod2d_text); [reflexivity|vm_compute; reflexivity]|].
  split; [apply (Hfiles _ nod3d_text); [reflexivity|vm_compute; reflexivity]|].
  split; [apply (Hfiles _ elem2d_text); [reflexivity|unfold refers_to_nodes; compute_done]|].
  split; [apply (Hfiles _ elem3d_text); [reflexivity|unfold refers_to_nodes; compute_done]|].
  apply (Hfiles _ aux3d_text); [reflexivity|unfold refers_to_nodes; compute_done].
Qed.

Lemma mesh_connectivity_in_range_witness :
  mesh_target_ok (fs Samples.fresh_world) Samples.stub_dir = true
  ∧ ∃ w' n2 n3,
      Fesom2p6ModelRun._create_minimal_mesh_files Samples.stub_dir Samples.fresh_world
      = Ret tt w'
      ∧ written (fs w') Samples.stub_dir "elem2d.out" (refers_to_nodes n2)
      ∧ written (fs w') Samples.stub_dir "elem3d.out" (refers_to_nodes n3).
Proof.
  assert (mesh_target_ok (fs Samples.fresh_world) Samples.stub_dir = true) as H
    by (vm_compute; reflexivity).
  split; [exact H|].
  destruct (mesh_connectivity_in_range Samples.stub_dir Samples.fresh_world H)
    as (w' & n2 & n3 & Hrun & _ & _ & _ & H2 & H3 & _).
  exists w', n2, n3. split; [exact Hrun|]. split; [exact H2|exact H3].
Defined.

(** X4: the tetrahedra either variant writes stand upright: line i of
    [elem3d.out] after the header, for i from 1 to 10, lists the nodes i,
    i+1, i+2 and i+10, and in [nod3d.out] the records i+10 and i+20 carry the
    longitude and latitude of record i. *)
Theorem elem3d_vertical_edges (d : Path) (w : World) :
  mesh_target_ok (fs w) d = true →
  ∃ w' elems nodes,
    Fesom2p6ModelRun._create_minimal_mesh_files d w = Ret tt w'
    ∧ FesomDevModelRun._create_minimal_mesh_files d w = Ret tt w'
    ∧ fs w' !! joinpath d "elem3d.out" = Some (File elems)
    ∧ fs w' !! joinpath d "nod3d.out" = Some (File nodes)
    ∧ ∀ i, 1 ≤ i ≤ 10 →
        fields <$> lines elems !! Z.to_nat i = Some (map str_int [i; i + 1; i + 2; i + 10])
        ∧ (lines nodes !! Z.to_nat i ≫= fun l => head (fields l)) = Some (str_int i)
        ∧ lon_lat <$> lines nodes !! Z.to_nat (i + 10)
          = lon_lat <$> lines nodes !! Z.to_nat i
        ∧ lon_lat <$> lines nodes !! Z.to_nat (i + 20)
          = lon_lat <$> lines nodes !! Z.to_nat i.
Proof.
  intros Hok.
  exists (set_fs w (with_mesh d (fs w))), elem3d_text, nod3d_text.
  pose proof (create_minimal_mesh_files_run d w Hok) as Hrun.
  split; [exact Hrun|]. split; [exact Hrun|].
  split; [cbn [fs set_fs]; by rewrite with_mesh_lookup|].
  split; [cbn [fs set_fs]; by rewrite with_mesh_lookup|].
  intros i Hi.
  assert (i = 1 ∨ i = 2 ∨ i = 3 ∨ i = 4 ∨ i = 5 ∨ i = 6 ∨ i = 7 ∨ i = 8 ∨ i = 9 ∨ i = 10)
    as Hc by lia.
  repeat destruct Hc as [->|Hc]; try subst i;
    (split; [|split; [|split]]; vm_compute; reflexivity).
Qed.

Lemma elem3d_vertical_edges_witness :
  mesh_target_ok (fs Samples.fresh_world) Samples.stub_dir = true
  ∧ ∃ w' elems,
      Fesom2p6ModelRun._create_minimal_mesh_files Samples.stub_dir Samples.fresh_world
      = Ret tt w'
      ∧ fs w' !! joinpath Samples.stub_dir "elem3d.out" = Some (File elems)
      ∧ fields <$> lines elems !! 4%nat = Some ["4"; "5"; "6"; "14"].
Proof.
  assert (mesh_target_ok (fs Samples.fresh_world) Samples.stub_dir = true) as H
    by (vm_compute; reflexivity).
  split; [exact H|].
  destruct (elem3d_vertical_edges Samples.stub_dir Samples.fresh_world H)
    as (w' & elems & nodes & Hrun & _ & Hfile & _ & Hall).
  assert (1 ≤ 4 ≤ 10) as H4 by lia.
  destruct (Hall 4 H4) as (Hfields & _).
  exists w', elems. split; [exact Hrun|]. split; [exact Hfile|exact Hfields].
Defined.

(** X5: no two nodes either variant writes coincide: the ten records of
    [nod2d.out] carry pairwise different (longitude, latitude) pairs, and the
    thirty records of [nod3d.out] pairwise different (longitude, latitude,
    depth) triples. *)
Theorem mesh_nodes_distinct (d : Path) (w : World) :
  mesh_target_ok (fs w) d = true →
  ∃ w',
    Fesom2p6ModelRun._create_minimal_mesh_files d w = Ret tt w'
    ∧ FesomDevModelRun._create_minimal_mesh_files d w = Ret tt w'
    ∧ written (fs w') d "nod2d.out"
        (fun text => length (drop 1 (lines text)) = 10%nat
                     ∧ NoDup (lon_lat <$> drop 1 (lines text)))
    ∧ written (fs w') d "nod3d.out"
        (fun text => length (drop 1 (lines text)) = 30%nat
                     ∧ NoDup (point3d <$> drop 1 (lines text))).
Proof.
  intros Hok. destruct (mesh_files_written d w Hok) as (w' & H26 & Hdev & Hfiles).
  exists w'. split; [exact H26|]. split; [exact Hdev|].
  split; [apply (Hfiles _ nod2d_text); [reflexivity|];
          split; [vm_compute; reflexivity|compute_done]|].
  apply (Hfiles _ nod3d_text); [reflexivity|].
  split; [vm_compute; reflexivity|compute_done].
Qed.

Lemma mesh_nodes_distinct_witness :
  mesh_target_ok (fs Samples.fresh_world) Samples.stub_dir = true
  ∧ ∃ w',
      Fesom2p6ModelRun._create_minimal_mesh_files Samples.stub_dir Samples.fresh_world
      = Ret tt w'
      ∧ written (fs w') Samples.stub_dir "nod3d.out"
          (fun text => length (drop 1 (lines text)) = 30%nat
                       ∧ NoDup (point3d <$> drop 1 (lines text))).
Proof.
  assert (mesh_target_ok (fs Samples.fresh_world) Samples.stub_dir = true) as H
    by (vm_compute; reflexivity).
  split; [exact H|].
  destruct (mesh_nodes_distinct Samples.stub_dir Samples.fresh_world H)
    as (w' & Hrun & _ & _ & Hnod).
  exists w'. split; [exact Hrun|exact Hnod].
Defined.

(** X6: [depth.out] as either variant writes it has ten lines; line i, for i
    from 0 to 9, is three blanks and the depth -100 - 50 x i with one exact
    decimal, so that the depths fall by 50 from -100.0 to -550.0. *)
Theorem depth_records (d : Path) (w : World) :
  mesh_target_ok (fs w) d = true →
  ∃ w' text,
    Fesom2p6ModelRun._create_minimal_mesh_files d w = Ret tt w'
    ∧ FesomDevModelRun._create_minimal_mesh_files d w = Ret tt w'
    ∧ fs w' !! joinpath d "depth.out" = Some (File text)
    ∧ length (lines text) = 10%nat
    ∧ ∀ i, 0 ≤ i ≤ 9 →
        lines text !! Z.to_nat i
        = Some ("   -" +:+ decimal_text 1 (inject_Z (100 + 50 * i))).
Proof.
  intros Hok.
  exists (set_fs w (with_mesh d (fs w))), depth_text.
  pose proof (create_minimal_mesh_files_run d w Hok) as Hrun.
  split; [exact Hrun|]. split; [exact Hrun|].
  split; [cbn [fs set_fs]; by rewrite with_mesh_lookup|].
  split; [vm_compute; reflexivity|].
  intros i Hi.
  assert (i = 0 ∨ i = 1 ∨ i = 2 ∨ i = 3 ∨ i = 4 ∨ i = 5 ∨ i = 6 ∨ i = 7 ∨ i = 8 ∨ i = 9)
    as Hc by lia.
  repeat destruct Hc as [->|Hc]; try subst i; vm_compute; reflexivity.
Qed.

Lemma depth_records_witness :
  mesh_target_ok (fs Samples.fresh_world) Samples.stub_dir = true
  ∧ ∃ w' text,
      Fesom2p6ModelRun._create_minimal_mesh_files Samples.stub_dir Samples.fresh_world
      = Ret tt w'
      ∧ fs w' !! joinpath Samples.stub_dir "depth.out" = Some (File text)
      ∧ lines text !! 9%nat = Some "   -550.0".
Proof.
  assert (mesh_target_ok (fs Samples.fresh_world) Samples.stub_dir = true) as H
    by (vm_compute; reflexivity).
  split; [exact H|].
  destruct (depth_records Samples.stub_dir Samples.fresh_world H)
    as (w' & text & Hrun & _ & Hfile & _ & Hall).
  assert (0 ≤ 9 ≤ 9) as H9 by lia.
  exists w', text. split; [exact Hrun|]. split; [exact Hfile|exact (Hall 9 H9)].
Defined.

(** ** How the mesh synthesizer ends *)

(** X7: the synthesizer of either variant returns only on a target that is a
    directory and in which none of the six names is taken by a directory;
    the six files then hold the synthesized texts whatever they held
    before. On any other target it raises and does not return. *)
Theorem mesh_generation_needs_target (d : Path) (w : World) :
  (∀ w', Fesom2p6ModelRun._create_minimal_mesh_files d w = Ret tt w' →
         mesh_target_ok (fs w) d = true ∧ holds_mesh (fs w') d)
  ∧ (∀ w', FesomDevModelRun._create_minimal_mesh_files d w = Ret tt w' →
           mesh_target_ok (fs w) d = true ∧ holds_mesh (fs w') d)
  ∧ (mesh_target_ok (fs w) d = false →
     ∃ e w', Fesom2p6ModelRun._create_minimal_mesh_files d w = Raise e w'
             ∧ FesomDevModelRun._create_minimal_mesh_files d w = Raise e w').
Proof.
  assert (∀ w', Fesom2p6ModelRun._create_minimal_mesh_files d w = Ret tt w' →
                mesh_target_ok (fs w) d = true ∧ holds_mesh (fs w') d) as Hret.
  { intros w' Hrun.
    destruct (create_minimal_mesh_files_outcome d w)
      as (fs' & _ & [[Hok _]|[_ (e & _ & Hraise)]]); [|congruence].
    split; [done|].
    rewrite create_minimal_mesh_files_run in Hrun by done.
    injection Hrun as <-. apply with_mesh_holds. }
  split; [exact Hret|]. split; [exact Hret|].
  intros Hbad.
  destruct (create_minimal_mesh_files_outcome d w)
    as (fs' & _ & [[Hok _]|[_ (e & He & Hraise)]]); [congruence|].
  by exists e, (set_fs w fs').
Qed.

(** X8: however the synthesizer ends, returning or raising half-way, it
    leaves every path other than the six mesh files of its target as it
    was, hands nothing to the logger and starts no command. *)
Theorem mesh_generation_frame (d q : Path) (w : World) :
  q ∉ map (joinpath d) mesh_names →
  let w' := world_of (Fesom2p6ModelRun._create_minimal_mesh_files d w) in
  let w'' := world_of (FesomDevModelRun._create_minimal_mesh_files d w) in
  fs w' !! q = fs w !! q ∧ logs w' = logs w ∧ calls w' = calls w ∧ w'' = w'.
Proof.
  intros Hq w' w''.
  assert (off_mesh d q) as Hoff.
  { intros name Hin ->. apply Hq. apply list_elem_of_fmap. by exists name. }
  subst w' w''.
  change (FesomDevModelRun._create_minimal_mesh_files d w)
    with (Fesom2p6ModelRun._create_minimal_mesh_files d w).
  destruct (create_minimal_mesh_files_outcome d w)
    as (fs' & Hframe & [[_ Hrun]|[_ (e & _ & Hrun)]]);
    rewrite Hrun; simpl; rewrite Hframe by done; done.
Qed.

Lemma mesh_generation_frame_witness :
  (["tmp"] ∉ map (joinpath Samples.stub_dir) mesh_names)
  ∧ fs (world_of (Fesom2p6ModelRun._create_minimal_mesh_files Samples.stub_dir
                    Samples.fresh_world)) !! ["tmp"] = Some Dir.
Proof.
  assert (["tmp"] ∉ map (joinpath Samples.stub_dir) mesh_names) as H by compute_done.
  split; [exact H|].
  destruct (mesh_generation_frame Samples.stub_dir ["tmp"] Samples.fresh_world H)
    as (Hfs & _).
  rewrite Hfs. vm_compute. reflexivity.
Defined.

(** ** How the stub directories are generated *)

(** X9: [generate_stub_datadir] of the 2.6 variant returns only when the
    manifest interpreter has returned a directory under which
    [input/fesom/mesh/pi] could be made and written to (no plain file on the
    way, no directory under a mesh name); it then returns the directory the
    interpreter returned (not its own argument), with the mesh in place. When
    a plain file or a directory is in the way it raises, and an error of the
    interpreter is passed on unchanged. *)
Theorem stub_datadir_needs_target
    (here : Path) (generate_stub_files : Path → Path → M Path)
    (stub_dir : Path) (w : World) :
  let manifest := joinpath here "fesom_2p6_stub_manifest.yaml" in
  let run := Fesom2p6ModelRun.generate_stub_datadir here generate_stub_files stub_dir w in
  (∀ r w2, run = Ret r w2 →
     ∃ w1, generate_stub_files manifest stub_dir w = Ret r w1
           ∧ stub_target_ok (fs w1) r = true
           ∧ holds_mesh (fs w2) (mesh_subdir r))
  ∧ (∀ made w1, generate_stub_files manifest stub_dir w = Ret made w1 →
       stub_target_ok (fs w1) made = false →
       ∃ e w2, run = Raise e w2)
  ∧ (∀ e w1, generate_stub_files manifest stub_dir w = Raise e w1 → run = Raise e w1).
Proof.
  intros manifest run.
  assert (∀ made w1, generate_stub_files manifest stub_dir w = Ret made w1 →
            stub_target_ok (fs w1) made = true →
            run = Ret made (set_fs w1 (with_mesh (mesh_subdir made)
                                         (make_dirs (mesh_subdir made) (fs w1)))))
    as Hgood.
  { intros made w1 Hgen Hok. subst run.
    unfold Fesom2p6ModelRun.generate_stub_datadir, Fesom2p6ModelRun.stub_manifest_path.
    fold manifest. erewrite bind_ret by exact Hgen. fold (mesh_subdir made).
    erewrite bind_ret; cycle 1.
    { apply mkdir_parents_run. unfold stub_target_ok in Hok.
      by apply andb_true_iff in Hok as [? _]. }
    erewrite bind_ret; cycle 1.
    { apply create_minimal_mesh_files_run. simpl fs. by apply stub_target_ok_mesh. }
    done. }
  assert (∀ made w1, generate_stub_files manifest stub_dir w = Ret made w1 →
            stub_target_ok (fs w1) made = false →
            ∃ e w2, run = Raise e w2) as Hbad.
  { intros made w1 Hgen Hok. subst run.
    unfold Fesom2p6ModelRun.generate_stub_datadir, Fesom2p6ModelRun.stub_manifest_path.
    fold manifest. erewrite bind_ret by exact Hgen. fold (mesh_subdir made).
    unfold stub_target_ok in Hok.
    destruct (dirs_clear (fs w1) (mesh_subdir made)) eqn:Hclear.
    - erewrite bind_ret by (by apply mkdir_parents_run).
      rewrite andb_true_l, <- mesh_target_ok_make_dirs in Hok by done.
      destruct (create_minimal_mesh_files_outcome (mesh_subdir made)
                  (set_fs w1 (make_dirs (mesh_subdir made) (fs w1))))
        as (fs' & _ & [[Hok' _]|[_ (e & He & Hraise)]]).
      { cbn [fs set_fs] in Hok'. congruence. }
      erewrite bind_raise by exact Hraise. by eexists _, _.
    - destruct (mkdir_parents_blocked _ w1 Hclear) as (e & He & Hraise).
      erewrite bind_raise by exact Hraise. by eexists _, _. }
  assert (∀ e w1, generate_stub_files manifest stub_dir w = Raise e w1 → run = Raise e w1)
    as Hpass.
  { intros e w1 Hgen. subst run.
    unfold Fesom2p6ModelRun.generate_stub_datadir, Fesom2p6ModelRun.stub_manifest_path.
    fold manifest. by erewrite bind_raise by exact Hgen. }
  split; [|split; [exact Hbad|exact Hpass]].
  intros r w2 Hret.
  destruct (generate_stub_files manifest stub_dir w) as [made w1|e w1] eqn:Hgen.
  - destruct (stub_target_ok (fs w1) made) eqn:Hok.
    + rewrite (Hgood made w1 eq_refl Hok) in Hret. injection Hret as <- <-.
      exists w1. split_and!; [done..|]. apply with_mesh_holds.
    + destruct (Hbad made w1 eq_refl Hok) as (e & w2' & Hraise). congruence.
  - rewrite (Hpass e w1 eq_refl) in Hret. discriminate.
Qed.

(** X10: stub generation never removes or alters what the manifest
    interpreter wrote, other than a file under one of the six mesh names:
    however [generate_stub_datadir] of the 2.6 variant and
    [generate_stub_meshdir] of the dev variant end, an entry the interpreter
    left is still there with its contents. *)
Theorem stub_generation_keeps_files
    (here manifest : Path) (generate_stub_files : Path → Path → M Path)
    (stub_dir made q : Path) (v : node) (w w1 : World) :
  fs w1 !! q = Some v →
  (generate_stub_files (joinpath here "fesom_2p6_stub_manifest.yaml") stub_dir w
   = Ret made w1 →
   q ∉ map (joinpath (mesh_subdir made)) mesh_names →
   fs (world_of (Fesom2p6ModelRun.generate_stub_datadir here generate_stub_files
                   stub_dir w)) !! q = Some v)
  ∧ (generate_stub_files manifest stub_dir w = Ret made w1 →
     q ∉ map (joinpath stub_dir) mesh_names →
     fs (world_of (FesomDevModelRun.generate_stub_meshdir manifest generate_stub_files
                     stub_dir w)) !! q = Some v).
Proof.
  intros Hq.
  assert (∀ d, q ∉ map (joinpath d) mesh_names → off_mesh d q) as Hoff.
  { intros d Hnot name Hin ->. apply Hnot, list_elem_of_fmap. by exists name. }
  split.
  - intros Hgen Hnot.
    unfold Fesom2p6ModelRun.generate_stub_datadir, Fesom2p6ModelRun.stub_manifest_path.
    erewrite bind_ret by exact Hgen. fold (mesh_subdir made).
    destruct (dirs_clear (fs w1) (mesh_subdir made)) eqn:Hclear.
    + erewrite bind_ret by (by apply mkdir_parents_run).
      destruct (create_minimal_mesh_files_outcome (mesh_subdir made)
                  (set_fs w1 (make_dirs (mesh_subdir made) (fs w1))))
        as (fs' & Hframe & [[_ Hrun]|[_ (e & _ & Hrun)]]).
      * erewrite bind_ret by exact Hrun. simpl.
        rewrite Hframe by auto. by apply make_dirs_keeps.
      * erewrite bind_raise by exact Hrun. simpl.
        rewrite Hframe by auto. by apply make_dirs_keeps.
    + destruct (mkdir_parents_blocked _ w1 Hclear) as (e & _ & Hraise).
      by erewrite bind_raise by exact Hraise.
  - intros Hgen Hnot.
    unfold FesomDevModelRun.generate_stub_meshdir.
    erewrite bind_ret by exact Hgen.
    change (FesomDevModelRun._create_minimal_mesh_files stub_dir)
      with (Fesom2p6ModelRun._create_minimal_mesh_files stub_dir).
    destruct (create_minimal_mesh_files_outcome stub_dir w1)
      as (fs' & Hframe & [[_ Hrun]|[_ (e & _ & Hrun)]]).
    + erewrite bind_ret by exact Hrun. simpl. by rewrite Hframe by auto.
    + erewrite bind_raise by exact Hrun. simpl. by rewrite Hframe by auto.
Qed.

Lemma stub_generation_keeps_files_witness :
  let q := joinpath Samples.stub_dir "temp.fesom.1850.nc" in
  let w1 := world_of (Samples.one_file_interpreter Samples.manifest Samples.stub_dir
                        Samples.fresh_world) in
  fs w1 !! q = Some (File "CDF")
  ∧ fs (world_of (Fesom2p6ModelRun.generate_stub_datadir ["pkg"]
                    Samples.one_file_interpreter Samples.stub_dir Samples.fresh_world))
      !! q = Some (File "CDF")
  ∧ fs (world_of (FesomDevModelRun.generate_stub_meshdir Samples.manifest
                    Samples.one_file_interpreter Samples.stub_dir Samples.fresh_world))
      !! q = Some (File "CDF").
Proof.
  intros q w1.
  assert (fs w1 !! q = Some (File "CDF")) as H by (vm_compute; reflexivity).
  split; [exact H|].
  destruct (stub_generation_keeps_files ["pkg"] Samples.manifest
              Samples.one_file_interpreter Samples.stub_dir Samples.stub_dir q
              (File "CDF") Samples.fresh_world w1 H) as [H2p6 Hdev].
  split.
  - apply H2p6; [vm_compute; reflexivity|compute_done].
  - apply Hdev; [vm_compute; reflexivity|compute_done].
Defined.

Ltac below_here := solve [repeat first [reflexivity | apply suffix_cons_r]].

(** X11: the two variants treat a stub directory that does not exist yet
    differently. When the interpreter returns the directory it was given
    without having made it, [generate_stub_meshdir] of the dev variant
    raises [FileNotFoundError] at the first mesh file and writes nothing,
    while [generate_stub_datadir] of the 2.6 variant makes the directory, with
    [input/fesom/mesh/pi] in it, and returns with the mesh in place. *)
Theorem missing_stub_dir
    (here manifest : Path) (generate_stub_files : Path → Path → M Path)
    (stub_dir : Path) (w w1 : World) :
  nothing_below (fs w1) stub_dir = true →
  dirs_clear (fs w1) stub_dir = true →
  stub_dir ≠ [] →
  (generate_stub_files manifest stub_dir w = Ret stub_dir w1 →
   FesomDevModelRun.generate_stub_meshdir manifest generate_stub_files stub_dir w
   = Raise (FileNotFoundError (str_path (joinpath stub_dir "nod2d.out"))) w1)
  ∧ (generate_stub_files (joinpath here "fesom_2p6_stub_manifest.yaml") stub_dir w
     = Ret stub_dir w1 →
     ∃ w2, Fesom2p6ModelRun.generate_stub_datadir here generate_stub_files stub_dir w
           = Ret stub_dir w2
           ∧ node_at (fs w2) stub_dir = Some Dir
           ∧ node_at (fs w2) (mesh_subdir stub_dir) = Some Dir
           ∧ holds_mesh (fs w2) (mesh_subdir stub_dir)).
Proof.
  intros Hnone Hclear Hroot.
  assert (∀ q, stub_dir `suffix_of` q → fs w1 !! q = None) as Hlook
    by (intros q; by apply nothing_below_lookup).
  split.
  - intros Hgen. unfold FesomDevModelRun.generate_stub_meshdir.
    erewrite bind_ret by exact Hgen.
    erewrite bind_raise; [done|].
    unfold FesomDevModelRun._create_minimal_mesh_files.
    erewrite bind_raise; [done|].
    unfold with_open_w, joinpath. destruct stub_dir as [|x up]; [done|].
    cbn [node_at]. by rewrite Hlook.
  - intros Hgen.
    assert (stub_target_ok (fs w1) stub_dir = true) as Hok.
    { unfold stub_target_ok. apply andb_true_iff. split.
      - unfold mesh_subdir, joinpath. simpl. unfold node_at.
        rewrite !Hlook by below_here. done.
      - apply forallb_forall. intros name _. unfold mesh_subdir, joinpath.
        by rewrite Hlook by below_here. }
    exists (set_fs w1 (with_mesh (mesh_subdir stub_dir)
                         (make_dirs (mesh_subdir stub_dir) (fs w1)))).
    split_and!.
    + unfold Fesom2p6ModelRun.generate_stub_datadir, Fesom2p6ModelRun.stub_manifest_path.
      erewrite bind_ret by exact Hgen. fold (mesh_subdir stub_dir).
      erewrite bind_ret; cycle 1.
      { apply mkdir_parents_run. unfold stub_target_ok in Hok.
        by apply andb_true_iff in Hok as [? _]. }
      erewrite bind_ret; cycle 1.
      { apply create_minimal_mesh_files_run. simpl fs. by apply stub_target_ok_mesh. }
      done.
    + simpl fs. destruct stub_dir as [|x up]; [done|]. unfold node_at, with_mesh.
      rewrite !lookup_insert_ne
        by (unfold mesh_subdir, joinpath; intros H; apply (f_equal length) in H;
            simpl in H; lia).
      unfold mesh_subdir, joinpath. simpl make_dirs. unfold node_at.
      rewrite !Hlook by below_here.
      rewrite !lookup_insert_ne
        by (intros H; apply (f_equal length) in H; simpl in H; lia).
      rewrite lookup_insert_eq. done.
    + cbn [fs set_fs]. unfold with_mesh.
      rewrite !node_at_insert_child. apply make_dirs_is_dir.
      unfold stub_target_ok in Hok. by apply andb_true_iff in Hok as [? _].
    + apply with_mesh_holds.
Qed.

Lemma missing_stub_dir_witness :
  nothing_below (fs MoreSamples.bare_world) Samples.stub_dir = true
  ∧ dirs_clear (fs MoreSamples.bare_world) Samples.stub_dir = true
  ∧ FesomDevModelRun.generate_stub_meshdir Samples.manifest MoreSamples.idle_interpreter
      Samples.stub_dir MoreSamples.bare_world
    = Raise (FileNotFoundError "/tmp/stub/nod2d.out") MoreSamples.bare_world
  ∧ ∃ w2, Fesom2p6ModelRun.generate_stub_datadir ["pkg"] MoreSamples.idle_interpreter
            Samples.stub_dir MoreSamples.bare_world = Ret Samples.stub_dir w2
          ∧ node_at (fs w2) Samples.stub_dir = Some Dir
          ∧ node_at (fs w2) (mesh_subdir Samples.stub_dir) = Some Dir
          ∧ holds_mesh (fs w2) (mesh_subdir Samples.stub_dir).
Proof.
  assert (nothing_below (fs MoreSamples.bare_world) Samples.stub_dir = true) as H1
    by (vm_compute; reflexivity).
  assert (dirs_clear (fs MoreSamples.bare_world) Samples.stub_dir = true) as H2
    by (vm_compute; reflexivity).
  assert (Samples.stub_dir ≠ []) as H3 by discriminate.
  destruct (missing_stub_dir ["pkg"] Samples.manifest MoreSamples.idle_interpreter
              Samples.stub_dir MoreSamples.bare_world MoreSamples.bare_world H1 H2 H3)
    as [Hdev Hfirst].
  split; [exact H1|]. split; [exact H2|]. split.
  - exact (Hdev eq_refl).
  - exact (Hfirst eq_refl).
Defined.

(** ** How the mesh clone proceeds *)

(** X12: a partial previous clone is removed before cloning, and nothing
    else is. When the cache holds no completed clone, the probe exits with 0
    and [pi_mesh_git] is a directory, the clone command starts from a file
    system without any entry at or below [pi_mesh_git] and with every other
    entry as the probe left it; the probe and the clone are the two commands
    started, in this order, and the world ends as the clone left it. *)
Theorem partial_clone_removed
    (cache_dir : Path) (run_process : list string → Z → FS → proc_result * FS)
    (w : World) (out1 err1 : string) (fs1 : FS) :
  is_cached cache_dir (fs w) = false →
  run_process probe_args 10 (fs w) = (Completed 0 out1 err1, fs1) →
  node_at fs1 (mesh_cache cache_dir) = Some Dir →
  ∃ fs1c,
    cleared cache_dir fs1 = Some fs1c
    ∧ (∀ q, mesh_cache cache_dir `suffix_of` q → fs1c !! q = None)
    ∧ (∀ q, ¬ mesh_cache cache_dir `suffix_of` q → fs1c !! q = fs1 !! q)
    ∧ let w' := world_of (FesomDevModelRun.fetch_real_meshdir cache_dir run_process w) in
      fs w' = (run_process (clone_args cache_dir) 300 fs1c).2
      ∧ calls w' = (calls w ++ [probe_args; clone_args cache_dir])%list.
Proof.
  intros Hmiss Hprobe Hdir.
  pose proof (fetch_real_meshdir_miss cache_dir run_process w Hmiss) as Hrun.
  rewrite Hprobe in Hrun. cbn zeta iota beta in Hrun.
  rewrite bool_decide_eq_false_2 in Hrun by (intros H; by apply H).
  unfold cleared in *. rewrite Hdir in *.
  eexists. split; [reflexivity|]. split_and!.
  - intros q Hq. apply map_lookup_filter_None_2. right. intros x _ Hnot. by apply Hnot.
  - intros q Hq. destruct (fs1 !! q) as [x|] eqn:Hx.
    + by apply map_lookup_filter_Some_2.
    + apply map_lookup_filter_None_2. by left.
  - rewrite Hrun.
    destruct (run_process (clone_args cache_dir) 300 _) as [[rc2 out err| |] fs2];
      [destruct (bool_decide (rc2 ≠ 0))|..]; done.
  - rewrite Hrun.
    destruct (run_process (clone_args cache_dir) 300 _) as [[rc2 out err| |] fs2];
      [destruct (bool_decide (rc2 ≠ 0))|..]; simpl; by rewrite <- app_assoc.
Qed.

Lemma partial_clone_removed_witness :
  is_cached Samples.cache_dir (fs MoreSamples.partial_world) = false
  ∧ ∃ fs1c,
      cleared Samples.cache_dir (fs MoreSamples.partial_world) = Some fs1c
      ∧ fs1c !! joinpath (mesh_cache Samples.cache_dir) "README.md" = None
      ∧ fs1c !! Samples.cache_dir = Some Dir.
Proof.
  assert (is_cached Samples.cache_dir (fs MoreSamples.partial_world) = false) as H
    by (vm_compute; reflexivity).
  split; [exact H|].
  destruct (partial_clone_removed Samples.cache_dir MoreSamples.working_git
              MoreSamples.partial_world "git-lfs/3.4.0" "" (fs MoreSamples.partial_world) H)
    as (fs1c & Hc & Hgone & Hkept & _);
    [reflexivity|vm_compute; reflexivity|].
  exists fs1c. split; [exact Hc|]. split.
  - apply Hgone. by apply suffix_cons_r.
  - rewrite Hkept; [vm_compute; reflexivity|].
    intros Hs%suffix_length. simpl in Hs. lia.
Defined.

(** X13: a clone is made once. When the cache holds no completed clone, the
    probe and the clone exit with 0 and the clone leaves [pi_mesh_git] with
    its [.git] folder, the call returns [pi_mesh_git]; a second call returns
    the same path from the cache, so that after both calls the commands
    started are still the one probe and the one clone, and the file system
    is as the clone left it. *)
Theorem clone_then_cached
    (cache_dir : Path) (run_process : list string → Z → FS → proc_result * FS)
    (w : World) (out1 err1 out err : string) (fs1 fs1c fs2 : FS) :
  is_cached cache_dir (fs w) = false →
  run_process probe_args 10 (fs w) = (Completed 0 out1 err1, fs1) →
  cleared cache_dir fs1 = Some fs1c →
  run_process (clone_args cache_dir) 300 fs1c = (Completed 0 out err, fs2) →
  is_cached cache_dir fs2 = true →
  ∃ w',
    call_times 2 (FesomDevModelRun.fetch_real_meshdir cache_dir run_process) w
    = Ret [joinpath cache_dir "pi_mesh_git"; joinpath cache_dir "pi_mesh_git"] w'
    ∧ fs w' = fs2
    ∧ calls w' = (calls w ++ [probe_args; clone_args cache_dir])%list.
Proof.
  intros Hmiss Hprobe Hclear Hclone Hdone.
  pose proof (fetch_real_meshdir_miss cache_dir run_process w Hmiss) as Hrun.
  rewrite Hprobe in Hrun. cbn zeta iota beta in Hrun.
  rewrite bool_decide_eq_false_2, Hclear, Hclone in Hrun by (intros H; by apply H).
  cbn zeta iota beta in Hrun.
  rewrite bool_decide_eq_false_2 in Hrun by (intros H; by apply H).
  match type of Hrun with _ = Ret _ ?w1 =>
    pose proof (fetch_real_meshdir_hit cache_dir run_process w1 Hdone) as Hhit end.
  eexists. split; [|split].
  - eapply call_times_cons; [exact Hrun|].
    eapply call_times_cons; [exact Hhit|]. reflexivity.
  - done.
  - simpl. by rewrite <- app_assoc.
Qed.

Lemma clone_then_cached_witness :
  is_cached Samples.cache_dir (fs Samples.uncached_world) = false
  ∧ ∃ w',
      call_times 2
        (FesomDevModelRun.fetch_real_meshdir Samples.cache_dir MoreSamples.working_git)
        Samples.uncached_world
      = Ret [mesh_cache Samples.cache_dir; mesh_cache Samples.cache_dir] w'
      ∧ fs w' = fs Samples.cached_world
      ∧ calls w' = [probe_args; clone_args Samples.cache_dir].
Proof.
  assert (is_cached Samples.cache_dir (fs Samples.uncached_world) = false) as H
    by (vm_compute; reflexivity).
  split; [exact H|].
  apply (clone_then_cached Samples.cache_dir MoreSamples.working_git
           Samples.uncached_world "git-lfs/3.4.0" "" ""
           "Cloning into pi_mesh_git..." (fs Samples.uncached_world)
           (fs Samples.uncached_world) (fs Samples.cached_world) H);
    vm_compute; reflexivity.
Defined.

(** X14: without the large-file extension nothing is cloned and nothing is
    removed. When the cache holds no completed clone and the probe exits
    non-zero, the call raises a [RuntimeError] that names git-lfs and where
    to get it; the probe is the only command started, and the file system,
    a partial clone included, is as the probe left it. *)
Theorem lfs_missing_stops
    (cache_dir : Path) (run_process : list string → Z → FS → proc_result * FS)
    (w : World) (rc : Z) (out1 err1 : string) (fs1 : FS) :
  is_cached cache_dir (fs w) = false →
  run_process probe_args 10 (fs w) = (Completed rc out1 err1, fs1) →
  rc ≠ 0 →
  ∃ msg w',
    FesomDevModelRun.fetch_real_meshdir cache_dir run_process w
    = Raise (RuntimeError msg) w'
    ∧ contains msg "git-lfs is not installed"
    ∧ contains msg "https://git-lfs.github.com/"
    ∧ fs w' = fs1
    ∧ calls w' = (calls w ++ [probe_args])%list.
Proof.
  intros Hmiss Hprobe Hrc.
  pose proof (fetch_real_meshdir_miss cache_dir run_process w Hmiss) as Hrun.
  rewrite Hprobe in Hrun. cbn zeta iota beta in Hrun.
  rewrite bool_decide_eq_true_2 in Hrun by done.
  eexists _, _. split; [exact Hrun|]. split_and!; [| |done..].
  - by exists "", (". Please install git-lfs to download mesh data." +:+ LF
                  +:+ "See: https://git-lfs.github.com/").
  - by exists ("git-lfs is not installed. Please install git-lfs to download mesh data."
              +:+ LF +:+ "See: "), "".
Qed.

Lemma lfs_missing_stops_witness :
  is_cached Samples.cache_dir (fs MoreSamples.partial_world) = false
  ∧ ∃ msg w',
      FesomDevModelRun.fetch_real_meshdir Samples.cache_dir MoreSamples.git_without_lfs
        MoreSamples.partial_world = Raise (RuntimeError msg) w'
      ∧ contains msg "git-lfs is not installed"
      ∧ fs w' = fs MoreSamples.partial_world
      ∧ calls w' = [probe_args].
Proof.
  assert (is_cached Samples.cache_dir (fs MoreSamples.partial_world) = false) as H
    by (vm_compute; reflexivity).
  split; [exact H|].
  destruct (lfs_missing_stops Samples.cache_dir MoreSamples.git_without_lfs
              MoreSamples.partial_world 1 "" "git: 'lfs' is not a git command."
              (fs MoreSamples.partial_world) H eq_refl)
    as (msg & w' & Hrun & Hmsg & _ & Hfs & Hcalls); [lia|].
  exists msg, w'. split; [exact Hrun|]. split; [exact Hmsg|]. split; [exact Hfs|exact Hcalls].
Defined.

(** X15: [fetch_real_meshdir] starts at most two commands, whatever the
    state of the cache and however it ends: none, or the probe alone, or the
    probe followed by the clone; the clone is started only after the probe
    has exited with 0. *)
Theorem at_most_probe_and_clone
    (cache_dir : Path) (run_process : list string → Z → FS → proc_result * FS)
    (w : World) :
  let w' := world_of (FesomDevModelRun.fetch_real_meshdir cache_dir run_process w) in
  calls w' = calls w
  ∨ calls w' = (calls w ++ [probe_args])%list
  ∨ (calls w' = (calls w ++ [probe_args; clone_args cache_dir])%list
     ∧ ∃ out1 err1 fs1, run_process probe_args 10 (fs w) = (Completed 0 out1 err1, fs1)).
Proof.
  intros w'. subst w'.
  destruct (is_cached cache_dir (fs w)) eqn:Hc.
  { left. by rewrite fetch_real_meshdir_hit. }
  rewrite fetch_real_meshdir_miss by done. cbn zeta.
  destruct (run_process probe_args 10 (fs w)) as [[rc1 out1 err1| |] fs1];
    [|by right; left..].
  destruct (bool_decide (rc1 ≠ 0)) eqn:Hrc; [by right; left|].
  apply bool_decide_eq_false_1 in Hrc. assert (rc1 = 0) as -> by lia.
  destruct (cleared cache_dir fs1) as [fs1c|]; [|by right; left].
  right; right. split; [|by eexists _, _, _].
  destruct (run_process (clone_args cache_dir) 300 fs1c) as [[rc2 out err| |] fs2];
    [destruct (bool_decide (rc2 ≠ 0))|..]; simpl; by rewrite <- app_assoc.
Qed.

(** X16: a plain file named [pi_mesh_git] stops the clone. When the probe
    has exited with 0 and [pi_mesh_git] is then a file, the error of
    [shutil.rmtree], a [NotADirectoryError], leaves the call as it is, not
    turned into a [RuntimeError]; the clone is not started and the file
    system is as the probe left it. *)
Theorem plain_file_in_cache
    (cache_dir : Path) (run_process : list string → Z → FS → proc_result * FS)
    (w : World) (out1 err1 content : string) (fs1 : FS) :
  is_cached cache_dir (fs w) = false →
  run_process probe_args 10 (fs w) = (Completed 0 out1 err1, fs1) →
  node_at fs1 (joinpath cache_dir "pi_mesh_git") = Some (File content) →
  ∃ w',
    FesomDevModelRun.fetch_real_meshdir cache_dir run_process w
    = Raise (NotADirectoryError (str_path (joinpath cache_dir "pi_mesh_git"))) w'
    ∧ fs w' = fs1
    ∧ calls w' = (calls w ++ [probe_args])%list.
Proof.
  intros Hmiss Hprobe Hfile.
  pose proof (fetch_real_meshdir_miss cache_dir run_process w Hmiss) as Hrun.
  rewrite Hprobe in Hrun. cbn zeta iota beta in Hrun.
  rewrite bool_decide_eq_false_2 in Hrun by (intros H; by apply H).
  unfold cleared in Hrun. fold (mesh_cache cache_dir) in Hfile.
  rewrite Hfile in Hrun. by eexists.
Qed.

Lemma plain_file_in_cache_witness :
  is_cached Samples.cache_dir (fs MoreSamples.file_world) = false
  ∧ ∃ w',
      FesomDevModelRun.fetch_real_meshdir Samples.cache_dir MoreSamples.working_git
        MoreSamples.file_world
      = Raise (NotADirectoryError "/home/user/.cache/pycmor/pi_mesh_git") w'
      ∧ fs w' = fs MoreSamples.file_world
      ∧ calls w' = [probe_args].
Proof.
  assert (is_cached Samples.cache_dir (fs MoreSamples.file_world) = false) as H
    by (vm_compute; reflexivity).
  split; [exact H|].
  apply (plain_file_in_cache Samples.cache_dir MoreSamples.working_git
           MoreSamples.file_world "git-lfs/3.4.0" "" "not a repository"
           (fs MoreSamples.file_world) H eq_refl).
  vm_compute; reflexivity.
Defined.

(** ** Opening the datasets *)

(** X17: [open_mfdataset] of the 2.6 variant hands the external opener
    exactly the entries of [outdata/fesom] under the data directory whose name
    starts with "temp.fesom", each once, never an empty list, with the
    caller's options as they are; when no entry matches it raises a
    [FileNotFoundError] that names the directory, and the opener is not
    called. *)
Theorem open_mfdataset_2p6
    (Dataset Kwargs : Type) (datadir : M Path)
    (xr_open_mfdataset : list Path → Kwargs → M Dataset)
    (kwargs : Kwargs) (w w1 : World) (d : Path) :
  let output_dir := joinpath (joinpath d "outdata") "fesom" in
  let wanted := entry_with (fs w1) output_dir (fun name => startswith name "temp.fesom") in
  let run := Fesom2p6ModelRun.open_mfdataset Dataset Kwargs datadir xr_open_mfdataset
               kwargs w in
  datadir w = Ret d w1 →
  node_at (fs w1) output_dir = Some Dir →
  ((∀ q, ¬ wanted q)
   ∧ run = Raise (FileNotFoundError
                    ("No temp.fesom* files found in " +:+ str_path output_dir)) w1)
  ∨ (∃ files, files ≠ [] ∧ NoDup files ∧ (∀ q, q ∈ files ↔ wanted q)
              ∧ run = xr_open_mfdataset files kwargs w1).
Proof.
  intros output_dir wanted run Hdir Hout. subst run.
  unfold Fesom2p6ModelRun.open_mfdataset.
  erewrite bind_ret by exact Hdir. fold output_dir.
  erewrite bind_ret by (unfold iterdir; by rewrite Hout).
  pose proof (elem_of_entries_with (fs w1) output_dir
                (fun name => startswith name "temp.fesom")) as Hin.
  pose proof (NoDup_filter (fun q => startswith (path_name q) "temp.fesom" = true)
                _ (NoDup_entries (fs w1) output_dir)) as Hnodup.
  destruct (filter _ (entries (fs w1) output_dir)) as [|q0 files] eqn:Hfiles.
  - left. split; [|done]. intros q Hq. apply Hin in Hq. by apply elem_of_nil in Hq.
  - right. exists (q0 :: files). split_and!; done.
Qed.

Lemma open_mfdataset_2p6_witness :
  node_at (fs MoreSamples.data_world) MoreSamples.output_dir = Some Dir
  ∧ Fesom2p6ModelRun.open_mfdataset (list Path) (list string) (mret MoreSamples.data_dir)
      MoreSamples.listing_opener ["combine=by_coords"] MoreSamples.data_world
    = Ret [joinpath MoreSamples.output_dir "temp.fesom.1850.nc"] MoreSamples.data_world.
Proof.
  assert (node_at (fs MoreSamples.data_world) MoreSamples.output_dir = Some Dir) as H
    by (vm_compute; reflexivity).
  split; [exact H|].
  destruct (open_mfdataset_2p6 (list Path) (list string) (mret MoreSamples.data_dir)
              MoreSamples.listing_opener ["combine=by_coords"] MoreSamples.data_world
              MoreSamples.data_world MoreSamples.data_dir eq_refl H)
    as [[_ Hrun]|(files & _ & _ & _ & Hrun)];
    vm_compute in Hrun; [discriminate|].
  injection Hrun as <-. vm_compute; reflexivity.
Defined.

(** X18: [open_mfdataset] of the dev variant hands the external opener
    exactly the entries of the data directory whose name ends with ".nc",
    each once, never an empty list, with the caller's options as they are.
    When there is none, and also when the data directory does not exist or
    is a plain file, it raises a [FileNotFoundError] that names the data
    directory, and the opener is not called. *)
Theorem open_mfdataset_dev
    (Dataset Kwargs : Type) (datadir : M Path)
    (xr_open_mfdataset : list Path → Kwargs → M Dataset)
    (kwargs : Kwargs) (w w1 : World) (d : Path) :
  let wanted := entry_with (fs w1) d (fun name => endswith name ".nc") in
  let run := FesomDevModelRun.open_mfdataset Dataset Kwargs datadir xr_open_mfdataset
               kwargs w in
  let not_found :=
    Raise (FileNotFoundError ("No NetCDF files found in " +:+ str_path d)) w1 in
  datadir w = Ret d w1 →
  datadir w1 = Ret d w1 →
  (node_at (fs w1) d ≠ Some Dir → run = not_found)
  ∧ (node_at (fs w1) d = Some Dir →
     ((∀ q, ¬ wanted q) ∧ run = not_found)
     ∨ (∃ files, files ≠ [] ∧ NoDup files ∧ (∀ q, q ∈ files ↔ wanted q)
                 ∧ run = xr_open_mfdataset files kwargs w1)).
Proof.
  intros wanted run not_found Hdir Hagain. subst run not_found.
  unfold FesomDevModelRun.open_mfdataset.
  erewrite bind_ret by exact Hdir. split.
  - intros Hnodir.
    assert (glob_star d ".nc" w1 = Ret [] w1) as Hglob.
    { unfold glob_star. by destruct (node_at (fs w1) d) as [[|c]|]. }
    erewrite bind_ret by exact Hglob. cbn beta iota.
    by erewrite bind_ret by exact Hagain.
  - intros Hisdir.
    erewrite bind_ret by (unfold glob_star; by rewrite Hisdir).
    pose proof (elem_of_entries_with (fs w1) d (fun name => endswith name ".nc")) as Hin.
    pose proof (NoDup_filter (fun q => endswith (path_name q) ".nc" = true)
                  _ (NoDup_entries (fs w1) d)) as Hnodup.
    destruct (filter _ (entries (fs w1) d)) as [|q0 files] eqn:Hfiles.
    + left. split.
      * intros q Hq. apply Hin in Hq. by apply elem_of_nil in Hq.
      * cbn beta iota. by erewrite bind_ret by exact Hagain.
    + right. exists (q0 :: files). split_and!; done.
Qed.

Lemma open_mfdataset_dev_witness :
  node_at (fs MoreSamples.data_world) MoreSamples.data_dir = Some Dir
  ∧ FesomDevModelRun.open_mfdataset (list Path) (list string) (mret MoreSamples.data_dir)
      MoreSamples.listing_opener [] MoreSamples.data_world
    = Ret [joinpath MoreSamples.data_dir "pi.nc"] MoreSamples.data_world
  ∧ FesomDevModelRun.open_mfdataset (list Path) (list string) (mret Samples.stub_dir)
      MoreSamples.listing_opener [] MoreSamples.bare_world
    = Raise (FileNotFoundError "No NetCDF files found in /tmp/stub") MoreSamples.bare_world.
Proof.
  assert (node_at (fs MoreSamples.data_world) MoreSamples.data_dir = Some Dir) as H
    by (vm_compute; reflexivity).
  split; [exact H|]. split.
  - destruct (open_mfdataset_dev (list Path) (list string) (mret MoreSamples.data_dir)
                MoreSamples.listing_opener [] MoreSamples.data_world
                MoreSamples.data_world MoreSamples.data_dir eq_refl eq_refl)
      as [_ Hfound].
    destruct (Hfound H) as [[_ Hrun]|(files & _ & _ & _ & Hrun)];
      vm_compute in Hrun; [discriminate|].
    injection Hrun as <-. vm_compute; reflexivity.
  - destruct (open_mfdataset_dev (list Path) (list string) (mret Samples.stub_dir)
                MoreSamples.listing_opener [] MoreSamples.bare_world
                MoreSamples.bare_world Samples.stub_dir eq_refl eq_refl)
      as [Hmissing _].
    apply Hmissing. vm_compute. discriminate.
Defined.
